(** * Medical appointment booking backend: the session and booking state machine

    A shallow embedding of [Backend/main.py]: the Slot Finder
    ([AgentTools.get_available_slots]), the Type Recommender
    ([AgentTools.recommend_appointment_type]), the Booking Ledger
    ([AgentTools.book_appointment]) and the endpoints [chat] and
    [reset_session].

    The two language-model calls are inputs of the model: what
    [IntentAgent.analyze_intent] returned (any JSON value, as [json.loads]
    gives it, or the fallback dictionary) and the text
    [IntentAgent.generate_response] returned.  The clock and the uuid generator
    are inputs as well.  The schedule table, loaded from [mock_schedule.json],
    is a section variable.  What the interpreter itself does with text
    ([str.lower], [str.upper], [int] of a str, [str] of a value) is taken as
    given. *)

From Stdlib Require Import ZArith QArith String Ascii List Lia Bool.
From stdpp Require Import base option numbers list strings gmap.

Set Warnings "-register-all".

Open Scope string_scope.
Open Scope Z_scope.

(* ====================================================================== *)
(** ** Python values *)
(* ====================================================================== *)

(** A Python float: finite (over-approximated by a rational), an infinity or
    NaN ([json.loads] accepts [Infinity] and [NaN]). *)
Inductive pyfloat :=
| FFin (q : Q)
| FInf (neg : bool)
| FNan.

(** What [json.loads] produces.  A [JObj] lists the items of a dict in
    insertion order; its keys are meant pairwise distinct. *)
Inductive json :=
| JNull
| JBool (b : bool)
| JInt (z : Z)
| JFloat (f : pyfloat)
| JStr (s : string)
| JArr (l : list json)
| JObj (kv : list (string * json)).

(** The exceptions the modelled code can raise. *)
Inductive exn :=
| TypeError
| ValueError
| KeyError
| AttributeError
| OverflowError.

Inductive result (A : Type) :=
| Ok (a : A)
| Raise (e : exn).
Arguments Ok {A} a.
Arguments Raise {A} e.

#[export] Instance result_ret : MRet result := fun A a => Ok a.
#[export] Instance result_bind : MBind result := fun A B f m =>
  match m with
  | Ok a => f a
  | Raise e => Raise e
  end.

(** [try: ... except Exception: return d] *)
Definition except_all {A} (m : result A) (d : A) : A :=
  match m with
  | Ok a => a
  | Raise _ => d
  end.

(* ---------------------------------------------------------------------- *)
(** *** Strings *)

Definition is_upper (c : ascii) : bool :=
  let n := nat_of_ascii c in (65 <=? n)%nat && (n <=? 90)%nat.
Definition is_lower (c : ascii) : bool :=
  let n := nat_of_ascii c in (97 <=? n)%nat && (n <=? 122)%nat.

Definition lower_char (c : ascii) : ascii :=
  if is_upper c then ascii_of_nat (nat_of_ascii c + 32) else c.
Definition upper_char (c : ascii) : ascii :=
  if is_lower c then ascii_of_nat (nat_of_ascii c - 32) else c.

(** A str of ASCII characters only. *)
Definition is_ascii (s : string) : bool :=
  forallb (fun c => (nat_of_ascii c <? 128)%nat) (list_ascii_of_string s).

(** [str.lower] and [str.upper] as they act on ASCII text: the letters A-Z
    and a-z are mapped, every other character is kept. *)
Fixpoint ascii_lower (s : string) : string :=
  match s with
  | EmptyString => EmptyString
  | String c t => String (lower_char c) (ascii_lower t)
  end.

Fixpoint ascii_upper (s : string) : string :=
  match s with
  | EmptyString => EmptyString
  | String c t => String (upper_char c) (ascii_upper t)
  end.

(** [sub in s] on strings. *)
Fixpoint contains (sub s : string) : bool :=
  String.prefix sub s ||
  match s with
  | EmptyString => false
  | String _ t => contains sub t
  end.

(** [any(word in s for word in words)] *)
Definition any_in (words : list string) (s : string) : bool :=
  existsb (fun word => contains word s) words.

(** [s.split(sep)[0]] for a one-character separator. *)
Fixpoint split_head (sep : ascii) (s : string) : string :=
  match s with
  | EmptyString => EmptyString
  | String c t => if Ascii.eqb c sep then EmptyString else String c (split_head sep t)
  end.

(** [s[:n]] *)
Fixpoint str_take (n : nat) (s : string) : string :=
  match n, s with
  | S m, String c t => String c (str_take m t)
  | _, _ => EmptyString
  end.

Definition is_space (c : ascii) : bool :=
  let n := nat_of_ascii c in
  (n =? 32)%nat || ((9 <=? n)%nat && (n <=? 13)%nat).

Definition is_digit (c : ascii) : bool :=
  let n := nat_of_ascii c in (48 <=? n)%nat && (n <=? 57)%nat.

Definition digit_val (c : ascii) : Z := Z.of_nat (nat_of_ascii c) - 48.

Fixpoint lstrip (s : string) : string :=
  match s with
  | EmptyString => EmptyString
  | String c t => if is_space c then lstrip t else s
  end.

Fixpoint str_rev_onto (s acc : string) : string :=
  match s with
  | EmptyString => acc
  | String c t => str_rev_onto t (String c acc)
  end.
Definition str_rev (s : string) : string := str_rev_onto s EmptyString.

Definition strip (s : string) : string := str_rev (lstrip (str_rev (lstrip s))).

(** The digits of a decimal literal: at least one digit, single underscores
    allowed between digits only. *)
Fixpoint digits_value (acc : Z) (after_digit : bool) (s : string) : option Z :=
  match s with
  | EmptyString => if after_digit then Some acc else None
  | String c t =>
      if is_digit c then digits_value (10 * acc + digit_val c) true t
      else if Ascii.eqb c "_"
           then (if after_digit then digits_value acc false t else None)
           else None
  end.

(** [int(s)] as it acts on short ASCII text: surrounding white space is
    dropped, then an optional sign and the digits.  [None] is ValueError. *)
Definition ascii_int_of_string (s : string) : option Z :=
  match strip s with
  | String "-" t => Z.opp <$> digits_value 0 false t
  | String "+" t => digits_value 0 false t
  | t => digits_value 0 false t
  end.

(** The string functions of the interpreter the code calls: [s.lower()],
    [s.upper()] and [int(s)] for a str ([None] is ValueError).  They work on
    the whole of Unicode (a Kelvin sign lower-cases to [k], [int] reads the
    decimal digits of every script and refuses very long literals), so they
    are taken as given; all that is used of them is that lower-casing ASCII
    text maps its letters and keeps the rest. *)
Class PyText := {
  lower : string -> string;
  upper : string -> string;
  int_of_string : string -> option Z;
  lower_ascii (s : string) : is_ascii s = true -> lower s = ascii_lower s
}.

(* ---------------------------------------------------------------------- *)
(** *** Truth value, equality, conversions *)

(** [bool(v)] *)
Definition truthy (v : json) : bool :=
  match v with
  | JNull => false
  | JBool b => b
  | JInt z => negb (z =? 0)
  | JFloat (FFin q) => negb (Qnum q =? 0)
  | JFloat _ => true
  | JStr s => negb (String.eqb s "")
  | JArr l => match l with [] => false | _ => true end
  | JObj kv => match kv with [] => false | _ => true end
  end.

(** [d.get(k)] on the items of a dict. *)
Fixpoint dict_get (kv : list (string * json)) (k : string) : option json :=
  match kv with
  | [] => None
  | (k', v) :: r => if String.eqb k' k then Some v else dict_get r k
  end.

Definition num_of (v : json) : option pyfloat :=
  match v with
  | JBool b => Some (FFin (inject_Z (Z.b2z b)))
  | JInt z => Some (FFin (inject_Z z))
  | JFloat f => Some f
  | _ => None
  end.

Definition float_eqb (a b : pyfloat) : bool :=
  match a, b with
  | FFin p, FFin q => Qeq_bool p q
  | FInf s, FInf t => Bool.eqb s t
  | _, _ => false
  end.

(** [a == b]: numbers (bool, int, float) compare by value, NaN equals
    nothing, lists compare item by item, dicts by keys and values. *)
Fixpoint py_eq (a b : json) : bool :=
  match a with
  | JNull => match b with JNull => true | _ => false end
  | JBool _ | JInt _ | JFloat _ =>
      match num_of a, num_of b with
      | Some x, Some y => float_eqb x y
      | _, _ => false
      end
  | JStr s => match b with JStr t => String.eqb s t | _ => false end
  | JArr l =>
      match b with
      | JArr l' =>
          (fix go (l l' : list json) : bool :=
             match l, l' with
             | [], [] => true
             | x :: xs, y :: ys => py_eq x y && go xs ys
             | _, _ => false
             end) l l'
      | _ => false
      end
  | JObj kv =>
      match b with
      | JObj kv' =>
          Nat.eqb (length kv) (length kv') &&
          (fix go (kv : list (string * json)) : bool :=
             match kv with
             | [] => true
             | (k, v) :: r =>
                 match dict_get kv' k with
                 | Some v' => py_eq v v'
                 | None => false
                 end && go r
             end) kv
      | _ => false
      end
  end.

(** [o.get(k, d)]: only a dict has [get]. *)
Definition py_get_default (o : json) (k : string) (d : json) : result json :=
  match o with
  | JObj kv => Ok (default d (dict_get kv k))
  | _ => Raise AttributeError
  end.

(** [o.get(k)] *)
Definition py_get (o : json) (k : string) : result json := py_get_default o k JNull.

(** [o[k]] for a string key. *)
Definition py_item (o : json) (k : string) : result json :=
  match o with
  | JObj kv => match dict_get kv k with Some v => Ok v | None => Raise KeyError end
  | _ => Raise TypeError
  end.

(** A dict looked up with an arbitrary key: a list or a dict is unhashable,
    a key that is not a string equals no key of a JSON object. *)
Definition dict_find (kv : list (string * json)) (k : json) : result (option json) :=
  match k with
  | JStr s => Ok (dict_get kv s)
  | JArr _ | JObj _ => Raise TypeError
  | _ => Ok None
  end.

(** [k in c] for a string [k]. *)
Definition py_in (k : string) (c : json) : result bool :=
  match c with
  | JObj kv => Ok (bool_decide (is_Some (dict_get kv k)))
  | JStr s => Ok (contains k s)
  | JArr l => Ok (existsb (py_eq (JStr k)) l)
  | _ => Raise TypeError
  end.

(** [for x in v]: the items a [for] loop visits. *)
Definition py_iter (v : json) : result (list json) :=
  match v with
  | JArr l => Ok l
  | JObj kv => Ok (map (fun p => JStr (fst p)) kv)
  | JStr s => Ok (map (fun c => JStr (String c EmptyString)) (list_ascii_of_string s))
  | _ => Raise TypeError
  end.

(** [int(v)] *)
Definition py_int {py : PyText} (v : json) : result Z :=
  match v with
  | JBool b => Ok (Z.b2z b)
  | JInt z => Ok z
  | JFloat (FFin q) => Ok (Z.quot (Qnum q) (Z.pos (Qden q)))
  | JFloat (FInf _) => Raise OverflowError
  | JFloat FNan => Raise ValueError
  | JStr s => match int_of_string s with Some z => Ok z | None => Raise ValueError end
  | _ => Raise TypeError
  end.

(** [v.lower()]: only a string has it. *)
Definition py_lower {py : PyText} (v : json) : result string :=
  match v with
  | JStr s => Ok (lower s)
  | _ => Raise AttributeError
  end.

(** Run [f] on each item in turn and chain the lists it yields; the first
    exception ends the loop. *)
Fixpoint flat_mapM {A B} (f : A -> result (list B)) (l : list A) : result (list B) :=
  match l with
  | [] => Ok []
  | a :: r => xs ← f a; ys ← flat_mapM f r; Ok (xs ++ ys)%list
  end.

(* ====================================================================== *)
(** ** Data models *)
(* ====================================================================== *)

Inductive ConversationPhase :=
| GREETING
| SELECTING_TYPE
| UNDERSTANDING
| SHOWING_SLOTS
| COLLECTING_INFO
| CONFIRMING
| COMPLETE.

#[export] Instance ConversationPhase_eq_dec : EqDecision ConversationPhase.
Proof. solve_decision. Defined.

(** The string value of the enum member, as the response carries it. *)
Definition phase_value (p : ConversationPhase) : string :=
  match p with
  | GREETING => "greeting"
  | SELECTING_TYPE => "selecting_appointment_type"
  | UNDERSTANDING => "understanding_needs"
  | SHOWING_SLOTS => "showing_slots"
  | COLLECTING_INFO => "collecting_info"
  | CONFIRMING => "confirming"
  | COMPLETE => "complete"
  end.

Record Message := {
  role : string;
  content : string;
  timestamp : option string
}.

Record ChatRequest := {
  request_session_id : string;
  message : string
}.

(** The models are not validated on assignment: a field holds whatever the
    intent analysis extracted, [JNull] being [None]. *)
Record PatientInfo := {
  name : json;
  email : json;
  phone : json
}.

Record BookingDetails := {
  appointment_type : json;
  preferred_date : json;
  preferred_time : json;
  reason : json;
  selected_slot : json
}.

Record ConversationState := {
  session_id : string;
  phase : ConversationPhase;
  messages : list Message;
  patient_info : PatientInfo;
  booking_details : BookingDetails;
  context : list (string * json);
  collected_info : gmap string bool
}.

(** [PatientInfo()] and [BookingDetails()] *)
Definition PatientInfo_new : PatientInfo :=
  {| name := JNull; email := JNull; phone := JNull |}.

Definition BookingDetails_new : BookingDetails :=
  {| appointment_type := JNull; preferred_date := JNull; preferred_time := JNull;
     reason := JNull; selected_slot := JNull |}.

(** The dict literal with the seven flags, all [False]. *)
Definition collected_info_new : gmap string bool :=
  <["time" := false]> (<["date" := false]> (<["phone" := false]> (<["email" := false]>
  (<["name" := false]> (<["reason" := false]> (<["appointment_type" := false]> ∅)))))).

Definition ConversationState_new (sid : string) : ConversationState :=
  {| session_id := sid; phase := GREETING; messages := [];
     patient_info := PatientInfo_new; booking_details := BookingDetails_new;
     context := []; collected_info := collected_info_new |}.

(** Field assignments. *)
Definition set_phase (p : ConversationPhase) (st : ConversationState) : ConversationState :=
  {| session_id := session_id st; phase := p; messages := messages st;
     patient_info := patient_info st; booking_details := booking_details st;
     context := context st; collected_info := collected_info st |}.

Definition set_messages (ms : list Message) (st : ConversationState) : ConversationState :=
  {| session_id := session_id st; phase := phase st; messages := ms;
     patient_info := patient_info st; booking_details := booking_details st;
     context := context st; collected_info := collected_info st |}.

Definition set_patient_info (p : PatientInfo) (st : ConversationState) : ConversationState :=
  {| session_id := session_id st; phase := phase st; messages := messages st;
     patient_info := p; booking_details := booking_details st;
     context := context st; collected_info := collected_info st |}.

Definition set_booking_details (b : BookingDetails) (st : ConversationState) : ConversationState :=
  {| session_id := session_id st; phase := phase st; messages := messages st;
     patient_info := patient_info st; booking_details := b;
     context := context st; collected_info := collected_info st |}.

Definition set_collected_info (c : gmap string bool) (st : ConversationState) : ConversationState :=
  {| session_id := session_id st; phase := phase st; messages := messages st;
     patient_info := patient_info st; booking_details := booking_details st;
     context := context st; collected_info := c |}.

(** [state.collected_info[k] = True] *)
Definition mark_collected (k : string) (st : ConversationState) : ConversationState :=
  set_collected_info (<[k := true]> (collected_info st)) st.

Definition set_name (v : json) (st : ConversationState) : ConversationState :=
  set_patient_info {| name := v; email := email (patient_info st);
                      phone := phone (patient_info st) |} st.
Definition set_email (v : json) (st : ConversationState) : ConversationState :=
  set_patient_info {| name := name (patient_info st); email := v;
                      phone := phone (patient_info st) |} st.
Definition set_phone (v : json) (st : ConversationState) : ConversationState :=
  set_patient_info {| name := name (patient_info st); email := email (patient_info st);
                      phone := v |} st.

Definition set_appointment_type (v : json) (st : ConversationState) : ConversationState :=
  let b := booking_details st in
  set_booking_details {| appointment_type := v; preferred_date := preferred_date b;
    preferred_time := preferred_time b; reason := reason b;
    selected_slot := selected_slot b |} st.
Definition set_preferred_date (v : json) (st : ConversationState) : ConversationState :=
  let b := booking_details st in
  set_booking_details {| appointment_type := appointment_type b; preferred_date := v;
    preferred_time := preferred_time b; reason := reason b;
    selected_slot := selected_slot b |} st.
Definition set_preferred_time (v : json) (st : ConversationState) : ConversationState :=
  let b := booking_details st in
  set_booking_details {| appointment_type := appointment_type b;
    preferred_date := preferred_date b; preferred_time := v; reason := reason b;
    selected_slot := selected_slot b |} st.
Definition set_reason (v : json) (st : ConversationState) : ConversationState :=
  let b := booking_details st in
  set_booking_details {| appointment_type := appointment_type b;
    preferred_date := preferred_date b; preferred_time := preferred_time b; reason := v;
    selected_slot := selected_slot b |} st.
Definition set_selected_slot (v : json) (st : ConversationState) : ConversationState :=
  let b := booking_details st in
  set_booking_details {| appointment_type := appointment_type b;
    preferred_date := preferred_date b; preferred_time := preferred_time b;
    reason := reason b; selected_slot := v |} st.

(** An entry of the list [get_available_slots] returns: the dict with the
    keys [day], [date], [start_time], [end_time] and [duration]. *)
Record SlotInfo := {
  slot_day : string;
  slot_date : json;
  slot_start_time : json;
  slot_end_time : json;
  slot_duration : json
}.

Definition slot_dict (s : SlotInfo) : json :=
  JObj [("day", JStr (slot_day s)); ("date", slot_date s);
        ("start_time", slot_start_time s); ("end_time", slot_end_time s);
        ("duration", slot_duration s)].

(** Appointment type details. *)
Definition APPOINTMENT_TYPES : json :=
  JObj [
    ("general_consultation", JObj [
       ("name", JStr "General Consultation");
       ("duration", JInt 30);
       ("description", JStr "Standard doctor visit for general health concerns")]);
    ("specialist_consultation", JObj [
       ("name", JStr "Specialist Consultation");
       ("duration", JInt 60);
       ("description", JStr "Extended consultation with a specialist")]);
    ("physical_exam", JObj [
       ("name", JStr "Physical Exam");
       ("duration", JInt 45);
       ("description", JStr "Comprehensive physical examination")]);
    ("followup", JObj [
       ("name", JStr "Follow-up");
       ("duration", JInt 15);
       ("description", JStr "Quick follow-up for previous visit")])
  ].

(** [sessions] and [bookings], the two process-wide dicts. *)
Record World := {
  sessions : gmap string ConversationState;
  bookings : gmap string json
}.

(** What one [chat] call reads from outside the process. *)
Record Inputs := {
  intent_analysis : json;      (* the value [analyze_intent] returned *)
  generated_response : string; (* the text [generate_response] returned *)
  now_user : string;           (* [datetime.now().isoformat()], user message *)
  now_ymd : string;            (* [datetime.now().strftime('%Y%m%d')] *)
  now_created : string;        (* [datetime.now().isoformat()], [created_at] *)
  now_assistant : string;      (* [datetime.now().isoformat()], assistant message *)
  uuid_booking : string;       (* [str(uuid.uuid4())], booking id *)
  uuid_confirmation : string   (* [str(uuid.uuid4())], confirmation code *)
}.

(* ====================================================================== *)
(** ** Agent tools *)
(* ====================================================================== *)

Definition followup_words : list string :=
  ["followup"; "follow-up"; "follow up"; "checkup"; "check up"; "routine check"].
Definition physical_words : list string :=
  ["physical"; "exam"; "annual"; "complete exam"].
Definition specialist_words : list string :=
  ["specialist"; "cardiologist"; "dermatologist"; "neurologist"; "serious"; "chronic"].

(** Recommend appointment type based on reason. *)
Definition recommend_appointment_type {py : PyText} (reason : string) : string :=
  let reason_lower := lower reason in
  if any_in followup_words reason_lower then "followup"
  else if any_in physical_words reason_lower then "physical_exam"
  else if any_in specialist_words reason_lower then "specialist_consultation"
  else "general_consultation".

(** [x in words] for a list of strings. *)
Definition str_in (x : string) (words : list string) : bool :=
  existsb (String.eqb x) words.

(** The three [continue] tests on the start hour: [true] when the slot is
    kept. *)
Definition hour_kept (tp : string) (hour : Z) : bool :=
  if str_in tp ["morning"; "am"] && (12 <=? hour) then false
  else if str_in tp ["afternoon"; "pm"] && ((hour <? 12) || (17 <=? hour)) then false
  else if String.eqb tp "evening" && (hour <? 17) then false
  else true.

(** [int(slot["start_time"].split(":")[0])] *)
Definition start_hour {py : PyText} (slot : json) : result Z :=
  st ← py_item slot "start_time";
  match st with
  | JStr s => py_int (JStr (split_head ":" s))
  | _ => Raise AttributeError
  end.

(** Apply time preference filter. *)
Definition time_preference_keeps {py : PyText} (time_preference slot : json)
    : result bool :=
  if truthy time_preference then
    hour ← start_hour slot;
    tp ← py_lower time_preference;
    Ok (hour_kept tp hour)
  else Ok true.

(** The session object being mutated and the ledger; a raised exception
    leaves both as they were at that point. *)
Record Cfg := {
  cur : ConversationState;
  ledger : gmap string json
}.

Definition M (A : Type) : Type := Cfg -> Cfg * result A.

#[export] Instance M_ret : MRet M := fun A a c => (c, Ok a).
#[export] Instance M_bind : MBind M := fun A B f m c =>
  match m c with
  | (c', Ok a) => f a c'
  | (c', Raise e) => (c', Raise e)
  end.

Definition lift {A} (r : result A) : M A := fun c => (c, r).
Definition get_state : M ConversationState := fun c => (c, Ok (cur c)).
Definition update (f : ConversationState -> ConversationState) : M unit :=
  fun c => ({| cur := f (cur c); ledger := ledger c |}, Ok tt).
Definition ret {A} (a : A) : M A := fun c => (c, Ok a).
Definition pass : M unit := ret tt.
Definition when (b : bool) (m : M unit) : M unit := if b then m else pass.

Section Backend.

(** The interpreter's string functions. *)
Context {py : PyText}.

(** The schedule table read from [mock_schedule.json] at start-up. *)
Variable SCHEDULE_DATA : json.

(** [str(v)], as an f-string renders a value. *)
Variable py_str : json -> string.

(** [SCHEDULE_DATA.get(appointment_type, {})] *)
Definition schedule_entry (appointment_type : json) : result json :=
  match SCHEDULE_DATA with
  | JObj kv => o ← dict_find kv appointment_type; Ok (default (JObj []) o)
  | _ => Raise AttributeError
  end.

(** [SCHEDULE_DATA[appointment_type]["duration_minutes"]] *)
Definition schedule_duration (appointment_type : json) : result json :=
  match SCHEDULE_DATA with
  | JObj kv =>
      o ← dict_find kv appointment_type;
      match o with
      | Some entry => py_item entry "duration_minutes"
      | None => Raise KeyError
      end
  | _ => Raise TypeError
  end.

(** The body of the inner loop, for one slot of a day. *)
Definition slot_entry (appointment_type time_preference : json)
    (day : string) (day_data slot : json) : result (list SlotInfo) :=
  available ← py_get slot "available";
  if truthy available then
    d ← py_get day_data "date";
    st ← py_get slot "start_time";
    et ← py_get slot "end_time";
    dur ← schedule_duration appointment_type;
    let slot_info := {| slot_day := day; slot_date := d; slot_start_time := st;
                        slot_end_time := et; slot_duration := dur |} in
    keep ← time_preference_keeps time_preference slot;
    Ok (if keep : bool then [slot_info] else [])
  else Ok [].

(** The body of the outer loop, for one day of the schedule. *)
Definition day_entries (appointment_type date time_preference : json)
    (item : string * json) : result (list SlotInfo) :=
  let '(day, day_data) := item in
  skip ← (if truthy date
          then d ← py_get day_data "date"; Ok (negb (py_eq d date))
          else Ok false);
  if skip : bool then Ok []
  else
    slots ← py_get_default day_data "slots" (JArr []);
    items ← py_iter slots;
    flat_mapM (slot_entry appointment_type time_preference day day_data) items.

Definition get_available_slots_body (appointment_type date time_preference : json)
    : result (list SlotInfo) :=
  entry ← schedule_entry appointment_type;
  type_schedule ← py_get_default entry "schedule" (JObj []);
  match type_schedule with
  | JObj days =>
      available_slots ← flat_mapM (day_entries appointment_type date time_preference) days;
      Ok (take 10 available_slots)
  | _ => Raise AttributeError
  end.

(** Get available appointment slots. *)
Definition get_available_slots (appointment_type date time_preference : json)
    : list SlotInfo :=
  except_all (get_available_slots_body appointment_type date time_preference) [].

(** Book an appointment: the record stored under its id. *)
Definition booking_id_of (inp : Inputs) : string :=
  "APPT-" ++ now_ymd inp ++ "-" ++ upper (str_take 8 (uuid_booking inp)).

Definition book_appointment (inp : Inputs) (booking_data : list (string * json))
    (ledger : gmap string json) : gmap string json * json :=
  let booking_id := booking_id_of inp in
  let confirmation_code := upper (str_take 6 (uuid_confirmation inp)) in
  let booking := JObj ([("booking_id", JStr booking_id);
                        ("confirmation_code", JStr confirmation_code);
                        ("status", JStr "confirmed");
                        ("created_at", JStr (now_created inp))] ++ booking_data)%list in
  (<[booking_id := booking]> ledger, booking).

(* ====================================================================== *)
(** ** The chat endpoint *)
(* ====================================================================== *)

(** The statements that put a session back to its initial values; the chat
    endpoint (restart) and [reset_session] run the same ones. *)
Definition reset_state (st : ConversationState) : ConversationState :=
  set_collected_info collected_info_new
    (set_booking_details BookingDetails_new
       (set_patient_info PatientInfo_new
          (set_phase GREETING st))).

Definition restart_words : list string := ["new"; "another"; "book"; "schedule"].

Definition restart_requested (st : ConversationState) (msg : string) : bool :=
  bool_decide (phase st = COMPLETE) && any_in restart_words (lower msg).

(** Check for restart request. *)
Definition check_restart (msg : string) : M unit :=
  st ← get_state;
  when (restart_requested st msg) (update reset_state).

(** [state.messages.append(msg)] *)
Definition append_message (m : Message) : M unit :=
  update (fun st => set_messages (messages st ++ [m])%list st).

(** Update state with extracted data: the seven [if] statements, each as the
    assignment it makes to the session for the value [v] that
    [extracted.get] gave. *)
Definition merge_reason (v : json) (st : ConversationState) : ConversationState :=
  if truthy v && negb (truthy (reason (booking_details st)))
  then set_phase SELECTING_TYPE (mark_collected "reason" (set_reason v st))
  else st.

Definition merge_appointment_type (v : json) (st : ConversationState) : ConversationState :=
  if truthy v
  then set_phase UNDERSTANDING (mark_collected "appointment_type" (set_appointment_type v st))
  else st.

Definition merge_name (v : json) (st : ConversationState) : ConversationState :=
  if truthy v && negb (truthy (name (patient_info st)))
  then mark_collected "name" (set_name v st)
  else st.

Definition merge_phone (v : json) (st : ConversationState) : ConversationState :=
  if truthy v && negb (truthy (phone (patient_info st)))
  then mark_collected "phone" (set_phone v st)
  else st.

Definition merge_email (v : json) (st : ConversationState) : ConversationState :=
  if truthy v && negb (truthy (email (patient_info st)))
  then mark_collected "email" (set_email v st)
  else st.

Definition merge_date (v : json) (st : ConversationState) : ConversationState :=
  if truthy v
  then mark_collected "date" (set_preferred_date v st)
  else st.

Definition merge_time_preference (v : json) (st : ConversationState) : ConversationState :=
  if truthy v
  then set_phase SHOWING_SLOTS (mark_collected "time" (set_preferred_time v st))
  else st.

Definition merge_extracted (extracted : json) : M unit :=
  v ← lift (py_get extracted "reason");
  update (merge_reason v);;
  v ← lift (py_get extracted "appointment_type");
  update (merge_appointment_type v);;
  v ← lift (py_get extracted "name");
  update (merge_name v);;
  v ← lift (py_get extracted "phone");
  update (merge_phone v);;
  v ← lift (py_get extracted "email");
  update (merge_email v);;
  v ← lift (py_get extracted "date");
  update (merge_date v);;
  v ← lift (py_get extracted "time_preference");
  update (merge_time_preference v).

(** The first available slot with the date and start time asked for. *)
Definition find_matching (available : list SlotInfo) (d s : json) : option SlotInfo :=
  find (fun avail_slot => py_eq (slot_date avail_slot) d && py_eq (slot_start_time avail_slot) s)
       available.

(** Handle specific slot selection: the value stored as the selected slot.
    Once [slot.get("date")] has returned, [slot] is a dict and the
    [slot.get] calls of the loop cannot raise. *)
Definition resolve_specific_slot (st : ConversationState) (slot : json) : result json :=
  has_end ← py_in "end_time" slot;
  if negb (has_end : bool) && truthy (appointment_type (booking_details st)) then
    d ← py_get slot "date";
    let available := get_available_slots (appointment_type (booking_details st)) d JNull in
    s ← py_get slot "start_time";
    Ok (match find_matching available d s with
        | Some avail_slot => slot_dict avail_slot
        | None => slot
        end)
  else Ok slot.

(** Handle slot selection by number: the session after the [try] block.
    Only ValueError and IndexError are caught. *)
Definition select_by_number (slot_num : json) (st : ConversationState)
    : result ConversationState :=
  let available := get_available_slots (appointment_type (booking_details st))
                     (preferred_date (booking_details st))
                     (preferred_time (booking_details st)) in
  match py_int slot_num with
  | Ok n =>
      let slot_idx := n - 1 in
      if (0 <=? slot_idx) && (slot_idx <? Z.of_nat (length available)) then
        match available !! Z.to_nat slot_idx with
        | Some s => Ok (set_phase COLLECTING_INFO (set_selected_slot (slot_dict s) st))
        | None => Ok st
        end
      else Ok st
  | Raise ValueError => Ok st
  | Raise e => Raise e
  end.

(** The [if]/[elif] on [specific_slot] and [slot_selection]. *)
Definition handle_slot (extracted : json) : M unit :=
  specific ← lift (py_get extracted "specific_slot");
  if truthy specific then
    st ← get_state;
    slot ← lift (resolve_specific_slot st specific);
    update (fun st => set_phase COLLECTING_INFO (set_selected_slot slot st))
  else
    selection ← lift (py_get extracted "slot_selection");
    st ← get_state;
    if truthy selection && truthy (appointment_type (booking_details st)) then
      st' ← lift (select_by_number selection st);
      update (fun _ => st')
    else pass.

(** Get available slots if needed. *)
Definition shown_slots (next_action : json) (st : ConversationState) : list SlotInfo :=
  if py_eq next_action (JStr "show_slots") && truthy (appointment_type (booking_details st))
  then get_available_slots (appointment_type (booking_details st))
         (preferred_date (booking_details st)) (preferred_time (booking_details st))
  else [].

(** Check if ready to book: the truth value of the [and] chain. *)
Definition can_book (ia : json) (st : ConversationState) : result bool :=
  ready ← py_get ia "ready_to_book";
  if truthy ready
     && truthy (name (patient_info st))
     && truthy (email (patient_info st))
     && truthy (phone (patient_info st))
     && truthy (selected_slot (booking_details st))
  then py_in "end_time" (selected_slot (booking_details st))
  else Ok false.

(** [APPOINTMENT_TYPES.get(appointment_type, {})] *)
Definition appointment_type_info (appointment_type : json) : result json :=
  match APPOINTMENT_TYPES with
  | JObj kv => o ← dict_find kv appointment_type; Ok (default (JObj []) o)
  | _ => Raise AttributeError
  end.

Definition booking_data_of (st : ConversationState) : result (list (string * json)) :=
  let b := booking_details st in
  let p := patient_info st in
  apt_type_info ← appointment_type_info (appointment_type b);
  type_name ← py_get apt_type_info "name";
  duration ← py_get apt_type_info "duration";
  d ← py_item (selected_slot b) "date";
  s ← py_item (selected_slot b) "start_time";
  e ← py_item (selected_slot b) "end_time";
  Ok [("appointment_type", appointment_type b);
      ("appointment_type_name", type_name);
      ("duration", duration);
      ("date", d);
      ("start_time", s);
      ("end_time", e);
      ("patient", JObj [("name", name p); ("email", email p); ("phone", phone p)]);
      ("reason", if truthy (reason b) then reason b else JStr "General consultation")].

Definition confirmation_text (day d s mail code : json) : string :=
  "Perfect! All set. Your appointment is confirmed for " ++ py_str day ++ ", "
  ++ py_str d ++ " at " ++ py_str s
  ++ ". You'll receive a confirmation email at " ++ py_str mail
  ++ " with all the details. Your confirmation code is " ++ py_str code ++ ".".

(** [agent.tools.book_appointment(booking_data)], on the ledger of the
    configuration. *)
Definition call_book_appointment (inp : Inputs) (booking_data : list (string * json))
    : M json :=
  fun c =>
    let '(l, booking) := book_appointment inp booking_data (ledger c) in
    ({| cur := cur c; ledger := l |}, Ok booking).

(** Book the appointment and generate the confirmation message. *)
Definition finalize (inp : Inputs) : M (json * string) :=
  st ← get_state;
  booking_data ← lift (booking_data_of st);
  booking_result ← call_book_appointment inp booking_data;
  update (set_phase COMPLETE);;
  let slot := selected_slot (booking_details st) in
  day ← lift (py_item slot "day");
  d ← lift (py_item slot "date");
  s ← lift (py_item slot "start_time");
  code ← lift (py_item booking_result "confirmation_code");
  ret (booking_result, confirmation_text day d s (email (patient_info st)) code).

(** [model_dump()] of the two models. *)
Definition dump_patient_info (p : PatientInfo) : json :=
  JObj [("name", name p); ("email", email p); ("phone", phone p)].

Definition dump_booking_details (b : BookingDetails) : json :=
  JObj [("appointment_type", appointment_type b);
        ("preferred_date", preferred_date b);
        ("preferred_time", preferred_time b);
        ("reason", reason b);
        ("selected_slot", selected_slot b)].

(** The response of [chat]. *)
Definition envelope (st : ConversationState) (response_text : string)
    (intent : json) (available_slots : list SlotInfo) (ready : bool)
    (booking_result next_action : json) : json :=
  JObj [("response", JStr response_text);
        ("phase", JStr (phase_value (phase st)));
        ("intent", intent);
        ("available_slots", JArr (if ready then [] else map slot_dict available_slots));
        ("booking", booking_result);
        ("patient_info", dump_patient_info (patient_info st));
        ("booking_details", dump_booking_details (booking_details st));
        ("next_action", next_action);
        ("appointment_types",
           if py_eq next_action (JStr "show_appointment_types")
           then APPOINTMENT_TYPES else JNull)].

(** From "Get available slots if needed" to the [return]: the slot list to
    show, the readiness check, the booking or the generated reply, the
    assistant message and the response. *)
Definition respond (ia : json) (inp : Inputs) : M json :=
  next_action ← lift (py_get ia "next_action");
  st ← get_state;
  let available_slots := shown_slots next_action st in
  ready ← lift (can_book ia st);
  outcome ← (if ready : bool
             then finalize inp
             else ret (JNull, generated_response inp));
  let '(booking_result, response_text) := outcome in
  append_message {| role := "assistant"; content := response_text;
                    timestamp := Some (now_assistant inp) |};;
  st ← get_state;
  intent ← lift (py_get ia "intent");
  ret (envelope st response_text intent available_slots ready booking_result next_action).

(** From "Add user message" to "Handle slot selection by number": the user
    message, the intent analysis and the merge of what it extracted. *)
Definition absorb (request : ChatRequest) (inp : Inputs) : M unit :=
  append_message {| role := "user"; content := message request;
                    timestamp := Some (now_user inp) |};;
  extracted ← lift (py_get_default (intent_analysis inp) "extracted" (JObj []));
  merge_extracted extracted;;
  handle_slot extracted.

(** The body of [chat] once [state] is bound to the session. *)
Definition chat_session (request : ChatRequest) (inp : Inputs) : M json :=
  check_restart (message request);;
  absorb request inp;;
  respond (intent_analysis inp) inp.

(** Main chat endpoint: get or create the session, then run the body on it. *)
Definition chat (request : ChatRequest) (inp : Inputs) (w : World) : World * result json :=
  let sid := request_session_id request in
  let state := default (ConversationState_new sid) (sessions w !! sid) in
  let '(c, r) := chat_session request inp {| cur := state; ledger := bookings w |} in
  ({| sessions := <[sid := cur c]> (sessions w); bookings := ledger c |}, r).

(** Reset a session for new booking. *)
Definition reset_session (sid : string) (w : World) : World * string :=
  match sessions w !! sid with
  | Some state =>
      ({| sessions := <[sid := reset_state state]> (sessions w); bookings := bookings w |},
       "reset")
  | None => (w, "not_found")
  end.

(* ---------------------------------------------------------------------- *)
(** *** Runs of calls and the slots a selection refers to *)

(** A run of chat calls, one after the other. *)
Fixpoint run_chats (calls : list (ChatRequest * Inputs)) (w : World) : World :=
  match calls with
  | [] => w
  | (request, inp) :: rest =>
      run_chats rest (fst (chat request inp w))
  end.

(** The run stays within one booking cycle of session [sid]: no call of the
    run finds that session in the complete phase with a restart keyword in
    its message. *)
Fixpoint one_cycle (sid : string) (calls : list (ChatRequest * Inputs)) (w : World)
    : Prop :=
  match calls with
  | [] => True
  | (request, inp) :: rest =>
      (request_session_id request = sid ->
       forall st, sessions w !! sid = Some st ->
                  restart_requested st (message request) = false)
      /\ one_cycle sid rest (fst (chat request inp w))
  end.

(** The slot the explicit selection stores. *)
Definition resolved_slot (ty : json) (kv : list (string * json)) (d s : json) : json :=
  match find_matching (get_available_slots ty d JNull) d s with
  | Some avail_slot => slot_dict avail_slot
  | None => JObj kv
  end.

(** The slots an ordinal selection is read against. *)
Definition selectable_slots (st : ConversationState) : list SlotInfo :=
  get_available_slots (appointment_type (booking_details st))
    (preferred_date (booking_details st)) (preferred_time (booking_details st)).

(** A selection that is a string [int()] rejects, or whose value as a 1-based
    index is outside the list. *)
Definition unusable_selection (v : json) (st : ConversationState) : Prop :=
  (exists txt, v = JStr txt /\ int_of_string txt = None)
  \/ (exists n, py_int v = Ok n
        /\ (n < 1 \/ Z.of_nat (length (selectable_slots st)) < n)).

End Backend.

(* ====================================================================== *)
(** ** The other endpoints and the intent fallback *)
(* ====================================================================== *)

(** What an endpoint that can answer with an HTTP error gives back: the
    value returned, [HTTPException(status_code, detail)], or another
    exception escaping the handler. *)
Inductive http_result (A : Type) :=
| Http_ok (a : A)
| Http_error (status_code : nat) (detail : string)
| Http_raise (e : exn).
Arguments Http_ok {A} a.
Arguments Http_error {A} status_code detail.
Arguments Http_raise {A} e.

(** Select a specific time slot.  The slot is stored before [slot["date"]]
    is read. *)
Definition select_slot (sid : string) (slot : list (string * json)) (w : World)
    : World * http_result json :=
  match sessions w !! sid with
  | None => (w, Http_error 404 "Session not found")
  | Some state =>
      let state := set_selected_slot (JObj slot) state in
      match dict_get slot "date" with
      | None =>
          ({| sessions := <[sid := state]> (sessions w); bookings := bookings w |},
           Http_raise KeyError)
      | Some d =>
          let state := set_phase COLLECTING_INFO (set_preferred_date d state) in
          ({| sessions := <[sid := state]> (sessions w); bookings := bookings w |},
           Http_ok (JObj [("status", JStr "success"); ("selected_slot", JObj slot)]))
      end
  end.

(** Get booking details. *)
Definition get_booking (booking_id : string) (w : World) : http_result json :=
  match bookings w !! booking_id with
  | None => Http_error 404 "Booking not found"
  | Some booking => Http_ok booking
  end.

(** The dict [analyze_intent] returns when the model call or [json.loads]
    raises. *)
Definition intent_fallback : json :=
  JObj [("intent", JStr "unknown");
        ("extracted", JObj []);
        ("next_action", JStr "ask_reason");
        ("ready_to_book", JBool false);
        ("is_greeting", JBool false)].

(** The [try]/[except] of [analyze_intent]: [parsed] is what [json.loads]
    gave, [None] when the model call or the parse raised. *)
Definition analyze_intent (parsed : option json) : json :=
  default intent_fallback parsed.

(* ====================================================================== *)
(** ** Vocabulary of the properties *)
(* ====================================================================== *)

Section Vocabulary.

Context {py : PyText}.

(** [sub] occurs in [s]. *)
Definition occurs_in (sub s : string) : Prop :=
  exists pre post, s = pre ++ sub ++ post.

(** The four appointment type codes. *)
Definition type_codes : list string :=
  ["general_consultation"; "followup"; "physical_exam"; "specialist_consultation"].

(** Some word of the list occurs in the lower-cased reason. *)
Definition mentions (words : list string) (reason : string) : Prop :=
  exists w, In w words /\ occurs_in w (lower reason).

(** The start hour of a returned slot: [int(start_time.split(":")[0])]. *)
Definition slot_hour (s : SlotInfo) : option Z :=
  match slot_start_time s with
  | JStr txt => int_of_string (split_head ":" txt)
  | _ => None
  end.

(** The slot is a dict with an [end_time] key. *)
Definition carries_end_time (slot : json) : Prop :=
  exists kv e, slot = JObj kv /\ dict_get kv "end_time" = Some e.

(** The slot is a dict whose [end_time] is a non-empty value. *)
Definition carries_nonempty_end_time (slot : json) : Prop :=
  exists kv e, slot = JObj kv /\ dict_get kv "end_time" = Some e /\ truthy e = true.

(** Name, email and phone are non-empty and a slot is selected whose end
    time passes [end_ok]. *)
Definition ready_for_booking (end_ok : json -> Prop) (st : ConversationState) : Prop :=
  truthy (name (patient_info st)) = true
  /\ truthy (email (patient_info st)) = true
  /\ truthy (phone (patient_info st)) = true
  /\ truthy (selected_slot (booking_details st)) = true
  /\ end_ok (selected_slot (booking_details st)).

(** [frames R m]: whatever [m] does, exception or not, the configuration it
    leaves is related by [R] to the one it started from. *)
Definition frames {A} (R : relation Cfg) (m : M A) : Prop :=
  forall c c' r, m c = (c', r) -> R c c'.

(** The relations the steps are framed by. *)
Definition same_ledger : relation Cfg := fun c c' => ledger c' = ledger c.

Definition same_patient_and_booking : relation Cfg := fun c c' =>
  patient_info (cur c') = patient_info (cur c)
  /\ booking_details (cur c') = booking_details (cur c).

(** Only the selected slot and the phase may differ. *)
Definition same_but_slot : relation Cfg := fun c c' =>
  ledger c' = ledger c
  /\ session_id (cur c') = session_id (cur c)
  /\ messages (cur c') = messages (cur c)
  /\ context (cur c') = context (cur c)
  /\ collected_info (cur c') = collected_info (cur c)
  /\ patient_info (cur c') = patient_info (cur c)
  /\ appointment_type (booking_details (cur c')) = appointment_type (booking_details (cur c))
  /\ preferred_date (booking_details (cur c')) = preferred_date (booking_details (cur c))
  /\ preferred_time (booking_details (cur c')) = preferred_time (booking_details (cur c))
  /\ reason (booking_details (cur c')) = reason (booking_details (cur c)).

(** The fields behind an already-set check (name, email, phone, reason):
    one that holds a value keeps it. *)
Definition guarded_kept : relation ConversationState := fun st st' =>
  (truthy (name (patient_info st)) = true ->
     name (patient_info st') = name (patient_info st))
  /\ (truthy (email (patient_info st)) = true ->
        email (patient_info st') = email (patient_info st))
  /\ (truthy (phone (patient_info st)) = true ->
        phone (patient_info st') = phone (patient_info st))
  /\ (truthy (reason (booking_details st)) = true ->
        reason (booking_details st') = reason (booking_details st)).

Definition keeps_guarded : relation Cfg := fun c c' => guarded_kept (cur c) (cur c').

(** The session with patient info, booking details, collected flags and
    phase at their initial values, the rest as in [st]. *)
Definition restarted (st : ConversationState) : ConversationState :=
  {| session_id := session_id st; phase := GREETING; messages := messages st;
     patient_info := PatientInfo_new; booking_details := BookingDetails_new;
     context := context st; collected_info := collected_info_new |}.

(** Some restart keyword occurs in the lower-cased message. *)
Definition has_restart_word (msg : string) : Prop :=
  exists word, In word restart_words /\ occurs_in word (lower msg).

(** [extracted.get(k)] for a dict with the items [ex]. *)
Definition extracted_get (ex : list (string * json)) (k : string) : json :=
  default JNull (dict_get ex k).

(** The seven assignments in the order of the source. *)
Definition merge_all (ex : list (string * json)) (st : ConversationState)
    : ConversationState :=
  merge_time_preference (extracted_get ex "time_preference")
    (merge_date (extracted_get ex "date")
       (merge_email (extracted_get ex "email")
          (merge_phone (extracted_get ex "phone")
             (merge_name (extracted_get ex "name")
                (merge_appointment_type (extracted_get ex "appointment_type")
                   (merge_reason (extracted_get ex "reason") st)))))).

(** The session when the merge starts: restart applied if asked for, user
    message appended. *)
Definition before_merge (request : ChatRequest) (inp : Inputs) (st : ConversationState)
    : ConversationState :=
  let st0 := if restart_requested st (message request) then reset_state st else st in
  set_messages (messages st0 ++ [{| role := "user"; content := message request;
                                     timestamp := Some (now_user inp) |}])%list st0.

(** The appointment type of a session is [None] or a truthy value: the merge
    stores truthy values only and a reset stores [None]. *)
Definition type_set_or_none (st : ConversationState) : Prop :=
  appointment_type (booking_details st) = JNull
  \/ truthy (appointment_type (booking_details st)) = true.

(** The date and start time of an available slot equal the ones asked for. *)
Definition slot_matches (d s : json) (a : SlotInfo) : bool :=
  py_eq (slot_date a) d && py_eq (slot_start_time a) s.

(** [a] is the first slot of [results] that matches. *)
Definition first_match (d s : json) (results : list SlotInfo) (a : SlotInfo) : Prop :=
  exists before after,
    results = (before ++ a :: after)%list
    /\ slot_matches d s a = true
    /\ forall x, In x before -> slot_matches d s x = false.

(** Greeting phase, empty patient info, empty booking details, all collected
    flags false. *)
Definition is_initial (st : ConversationState) : Prop :=
  phase st = GREETING
  /\ patient_info st = PatientInfo_new
  /\ booking_details st = BookingDetails_new
  /\ collected_info st = collected_info_new.

(** [day_data] is the entry of day [day] in the schedule the table holds for
    the appointment type [ty]. *)
Definition schedule_day (SD ty : json) (day : string) (day_data : json) : Prop :=
  exists kv type_name entry days,
    SD = JObj kv /\ ty = JStr type_name /\ dict_get kv type_name = Some entry
    /\ py_get_default entry "schedule" (JObj []) = Ok (JObj days)
    /\ In (day, day_data) days.

(** [slot] is one of the slots the table lists for that day. *)
Definition schedule_slot (SD ty : json) (day : string) (day_data slot : json) : Prop :=
  schedule_day SD ty day day_data
  /\ exists slots items,
       py_get_default day_data "slots" (JArr []) = Ok slots
       /\ py_iter slots = Ok items
       /\ In slot items.

(** The day passes the date filter: no date asked for, or the date of the
    day equals it. *)
Definition day_visited (date day_data : json) : Prop :=
  truthy date = false
  \/ exists d, py_get day_data "date" = Ok d /\ py_eq d date = true.


(** The two messages a chat call appends. *)
Definition user_message (request : ChatRequest) (inp : Inputs) : Message :=
  {| role := "user"; content := message request; timestamp := Some (now_user inp) |}.

Definition assistant_message (inp : Inputs) (text : string) : Message :=
  {| role := "assistant"; content := text; timestamp := Some (now_assistant inp) |}.





(** Each collected flag tells whether its field holds a value. *)
Definition flags_match (st : ConversationState) : Prop :=
  collected_info st !! "reason" = Some (truthy (reason (booking_details st)))
  /\ collected_info st !! "appointment_type"
     = Some (truthy (appointment_type (booking_details st)))
  /\ collected_info st !! "name" = Some (truthy (name (patient_info st)))
  /\ collected_info st !! "phone" = Some (truthy (phone (patient_info st)))
  /\ collected_info st !! "email" = Some (truthy (email (patient_info st)))
  /\ collected_info st !! "date" = Some (truthy (preferred_date (booking_details st)))
  /\ collected_info st !! "time" = Some (truthy (preferred_time (booking_details st))).

(** The phase the merge of the extracted fields [ex] leaves: the last of the
    three phase-setting fields that fires decides, time preference after
    appointment type after reason. *)
Definition phase_after_merge (ex : list (string * json)) (st : ConversationState)
    : ConversationPhase :=
  if truthy (extracted_get ex "time_preference") then SHOWING_SLOTS
  else if truthy (extracted_get ex "appointment_type") then UNDERSTANDING
  else if truthy (extracted_get ex "reason") && negb (truthy (reason (booking_details st)))
       then SELECTING_TYPE
       else phase st.

End Vocabulary.

(* ====================================================================== *)
(** ** Sample data *)
(* ====================================================================== *)

(** The sample calls hold short ASCII text only, where the interpreter's
    string functions are the ASCII ones. *)
Definition ascii_text : PyText :=
  {| lower := ascii_lower;
     upper := ascii_upper;
     int_of_string := ascii_int_of_string;
     lower_ascii := fun s _ => eq_refl |}.

Section SampleData.

#[local] Existing Instance ascii_text.

(** A small schedule table in the layout [get_available_slots] reads. *)
Definition sample_schedule : json :=
  JObj [("general_consultation", JObj [
     ("duration_minutes", JInt 30);
     ("schedule", JObj [
        ("Monday", JObj [
           ("date", JStr "2025-01-06");
           ("slots", JArr [
              JObj [("start_time", JStr "09:00"); ("end_time", JStr "09:30");
                    ("available", JBool true)];
              JObj [("start_time", JStr "13:00"); ("end_time", JStr "13:30");
                    ("available", JBool true)];
              JObj [("start_time", JStr "17:30"); ("end_time", JStr "18:00");
                    ("available", JBool false)];
              JObj [("start_time", JStr "18:00"); ("end_time", JStr "18:30");
                    ("available", JBool true)]])]);
        ("Tuesday", JObj [
           ("date", JStr "2025-01-07");
           ("slots", JArr [
              JObj [("start_time", JStr "10:00"); ("end_time", JStr "10:30");
                    ("available", JBool true)]])])])])].

(** A rendering of values good enough for strings. *)
Definition sample_str (v : json) : string :=
  match v with
  | JStr s => s
  | JNull => "None"
  | JBool true => "True"
  | JBool false => "False"
  | _ => "?"
  end.

Definition sample_inputs (ia : json) : Inputs :=
  {| intent_analysis := ia;
     generated_response := "What brings you in today?";
     now_user := "2025-01-02T10:00:00";
     now_ymd := "20250102";
     now_created := "2025-01-02T10:00:01";
     now_assistant := "2025-01-02T10:00:02";
     uuid_booking := "3f2a9c1e-0b7d-4e52-9a61-5d8c7e4b2f10";
     uuid_confirmation := "a81b44d0-6c3e-4f0a-8b1d-2e9f7c5a3d66" |}.

Definition empty_world : World := {| sessions := ∅; bookings := ∅ |}.

(** A session holding contact details and a slot whose [end_time] is the
    empty string, as the first of the two calls below leaves it. *)
Definition intake_inputs : Inputs :=
  sample_inputs (JObj [
    ("intent", JStr "provide_info");
    ("extracted", JObj [
       ("name", JStr "Ann Lee");
       ("email", JStr "ann@example.org");
       ("phone", JStr "555-0100");
       ("specific_slot", JObj [
          ("day", JStr "Monday"); ("date", JStr "2025-01-06");
          ("start_time", JStr "09:00"); ("end_time", JStr "")])]);
    ("next_action", JStr "confirm_booking");
    ("ready_to_book", JBool false)]).

Definition confirm_inputs : Inputs :=
  sample_inputs (JObj [
    ("intent", JStr "confirm");
    ("extracted", JObj []);
    ("next_action", JStr "confirm_booking");
    ("ready_to_book", JBool true)]).

Definition request_of (sid msg : string) : ChatRequest :=
  {| request_session_id := sid; message := msg |}.

Definition world_after_intake : World :=
  fst (chat sample_schedule sample_str (request_of "s1" "Ann Lee, ann@example.org")
         intake_inputs empty_world).

(** One call that carries everything, the slot with its end time. *)
Definition complete_inputs : Inputs :=
  sample_inputs (JObj [
    ("intent", JStr "confirm");
    ("extracted", JObj [
       ("appointment_type", JStr "general_consultation");
       ("name", JStr "Ann Lee");
       ("email", JStr "ann@example.org");
       ("phone", JStr "555-0100");
       ("specific_slot", JObj [
          ("day", JStr "Monday"); ("date", JStr "2025-01-06");
          ("start_time", JStr "09:00"); ("end_time", JStr "09:30")])]);
    ("next_action", JStr "show_slots");
    ("ready_to_book", JBool true)]).

(** The response of a call, [None] when it raised. *)
Definition response_of (r : result json) : json :=
  match r with
  | Ok env => env
  | Raise _ => JNull
  end.

Definition analysis (intent : string) (extracted : list (string * json))
    (next_action : string) (ready : bool) : json :=
  JObj [("intent", JStr intent); ("extracted", JObj extracted);
        ("next_action", JStr next_action); ("ready_to_book", JBool ready)].

(** A session that chose its appointment type and a date. *)
Definition world_with_type : World :=
  fst (chat sample_schedule sample_str (request_of "s1" "a general consultation on Monday")
         (sample_inputs (analysis "select_appointment_type"
            [("appointment_type", JStr "general_consultation");
             ("date", JStr "2025-01-06")]
            "ask_time_preference" false))
         empty_world).

(** A session whose booking went through. *)
Definition world_after_booking : World :=
  fst (chat sample_schedule sample_str (request_of "s1" "book it")
         complete_inputs empty_world).

Definition specific_slot_inputs : Inputs :=
  sample_inputs (analysis "select_time"
    [("specific_slot", JObj [("date", JStr "2025-01-06"); ("start_time", JStr "13:00")])]
    "collect_name" false).

Definition unusable_selection_inputs : Inputs :=
  sample_inputs (analysis "select_slot" [("slot_selection", JStr "first")]
                   "collect_name" false).

Definition session_with_type : ConversationState :=
  default (ConversationState_new "s1") (sessions world_with_type !! "s1").

Definition other_name_inputs : Inputs :=
  sample_inputs (analysis "provide_info"
    [("name", JStr "Bob Ray"); ("phone", JStr "555-0199")] "collect_email" false).

Definition session_after_intake : ConversationState :=
  default (ConversationState_new "s1") (sessions world_after_intake !! "s1").

Definition session_after_booking : ConversationState :=
  default (ConversationState_new "s1") (sessions world_after_booking !! "s1").

Definition new_date_inputs : Inputs :=
  sample_inputs (analysis "select_time"
    [("date", JStr "2025-01-07"); ("time_preference", JStr "morning")]
    "show_slots" false).

(** The sample schedule with one more available slot on Monday, whose start
    time is not a clock time. *)
Definition poisoned_schedule : json :=
  JObj [("general_consultation", JObj [
     ("duration_minutes", JInt 30);
     ("schedule", JObj [
        ("Monday", JObj [
           ("date", JStr "2025-01-06");
           ("slots", JArr [
              JObj [("start_time", JStr "09:00"); ("end_time", JStr "09:30");
                    ("available", JBool true)];
              JObj [("start_time", JStr "noon"); ("end_time", JStr "12:30");
                    ("available", JBool true)]])])])])].

(** The Monday slots of the sample schedule as the Slot Finder returns
    them. *)
Definition monday_morning_slot : SlotInfo :=
  {| slot_day := "Monday"; slot_date := JStr "2025-01-06";
     slot_start_time := JStr "09:00"; slot_end_time := JStr "09:30";
     slot_duration := JInt 30 |}.



(** An intent analysis whose [extracted] is null. *)
Definition null_extracted_inputs : Inputs :=
  sample_inputs (JObj [("intent", JStr "greeting"); ("extracted", JNull);
                       ("next_action", JStr "ask_reason");
                       ("ready_to_book", JBool false)]).

Definition fallback_inputs : Inputs := sample_inputs (analyze_intent None).

(** A slot the sample schedule does not have. *)
Definition unlisted_slot : list (string * json) :=
  [("day", JStr "Sunday"); ("date", JStr "2031-02-02");
   ("start_time", JStr "03:00"); ("end_time", JStr "03:05")].

Definition second_slot_inputs : Inputs :=
  sample_inputs (analysis "select_slot" [("slot_selection", JStr " 2 ")]
                   "collect_name" false).

Definition evening_inputs : Inputs :=
  sample_inputs (analysis "select_time"
    [("reason", JStr "a cough"); ("time_preference", JStr "evening")]
    "show_slots" false).

End SampleData.

(* ====================================================================== *)
(** ** Properties of the string helpers *)
(* ====================================================================== *)

Lemma prefix_spec (sub s : string) :
  String.prefix sub s = true <-> exists post, s = sub ++ post.
Proof.
  revert s. induction sub as [|a sub IH]; intros s; simpl.
  - split; [intros _; exists s; reflexivity | intros _; destruct s; reflexivity].
  - destruct s as [|b s]; simpl.
    + split; [discriminate | intros [post H]; discriminate].
    + destruct (ascii_dec a b) as [->|Hne].
      * rewrite IH. split; intros [post H]; exists post; [now subst | now injection H].
      * split; [discriminate | intros [post H]; injection H; congruence].
Qed.

Lemma contains_spec (sub s : string) :
  contains sub s = true <-> occurs_in sub s.
Proof.
  unfold occurs_in. induction s as [|c s IH]; cbn [contains].
  - rewrite orb_false_r, prefix_spec. split.
    + intros [post H]. exists "", post. exact H.
    + intros [pre [post H]]. destruct pre; simpl in H.
      * exists post. exact H.
      * discriminate.
  - rewrite orb_true_iff, prefix_spec, IH. split.
    + intros [[post H] | [pre [post H]]].
      * exists "", post. exact H.
      * exists (String c pre), post. simpl. now rewrite H.
    + intros [pre [post H]]. destruct pre as [|c' pre]; simpl in H.
      * left. exists post. exact H.
      * right. exists pre, post. now injection H.
Qed.

Lemma any_in_spec (words : list string) (s : string) :
  any_in words s = true <-> exists w, In w words /\ occurs_in w s.
Proof.
  unfold any_in. rewrite existsb_exists.
  split; intros [w [Hw H]]; exists w; split; auto; now apply contains_spec.
Qed.

(* ====================================================================== *)
(** ** The Type Recommender *)
(* ====================================================================== *)

Section TypeRecommender.

Context {py : PyText}.

(** C3. The Type Recommender is total: every reason string, the empty one
    included, gets exactly one of the four type codes.  The word lists are
    tried on the lower-cased reason, [reason.lower()] as the interpreter
    computes it, in the order follow-up, physical, specialist; the first list
    with a word in the lower-cased reason decides, and
    [general_consultation] is the answer when none has one, as for the empty
    reason.  Letter case does not count: reasons with the same lower-casing
    get the same code, so do reasons of ASCII text that differ in the case of
    their letters only. *)
Theorem recommend_appointment_type_total (reason : string) :
  In (recommend_appointment_type reason) type_codes
  /\ NoDup type_codes
  /\ (recommend_appointment_type reason = "followup"
      <-> mentions followup_words reason)
  /\ (recommend_appointment_type reason = "physical_exam"
      <-> ~ mentions followup_words reason /\ mentions physical_words reason)
  /\ (recommend_appointment_type reason = "specialist_consultation"
      <-> ~ mentions followup_words reason /\ ~ mentions physical_words reason
          /\ mentions specialist_words reason)
  /\ (recommend_appointment_type reason = "general_consultation"
      <-> ~ mentions followup_words reason /\ ~ mentions physical_words reason
          /\ ~ mentions specialist_words reason)
  /\ recommend_appointment_type "" = "general_consultation"
  /\ (forall reason', lower reason' = lower reason ->
        recommend_appointment_type reason' = recommend_appointment_type reason)
  /\ (forall reason', is_ascii reason = true -> is_ascii reason' = true ->
        ascii_lower reason' = ascii_lower reason ->
        recommend_appointment_type reason' = recommend_appointment_type reason).
Proof.
  assert (Hf := any_in_spec followup_words (lower reason)).
  assert (Hp := any_in_spec physical_words (lower reason)).
  assert (Hs := any_in_spec specialist_words (lower reason)).
  fold (mentions followup_words reason) in Hf.
  fold (mentions physical_words reason) in Hp.
  fold (mentions specialist_words reason) in Hs.
  assert (Hnd : NoDup type_codes).
  { unfold type_codes. compute_done. }
  assert (Hempty : recommend_appointment_type "" = "general_consultation").
  { unfold recommend_appointment_type.
    rewrite (lower_ascii "" eq_refl). reflexivity. }
  assert (Hsame : forall reason', lower reason' = lower reason ->
            recommend_appointment_type reason' = recommend_appointment_type reason).
  { intros reason' E. unfold recommend_appointment_type. now rewrite E. }
  assert (Hcase : forall reason', is_ascii reason = true -> is_ascii reason' = true ->
            ascii_lower reason' = ascii_lower reason ->
            recommend_appointment_type reason' = recommend_appointment_type reason).
  { intros reason' Ha Ha' E. apply Hsame.
    now rewrite (lower_ascii _ Ha), (lower_ascii _ Ha'). }
  unfold recommend_appointment_type at 1 2 3 4 5.
  destruct (any_in followup_words (lower reason)) eqn:Ef;
    [|destruct (any_in physical_words (lower reason)) eqn:Ep;
      [|destruct (any_in specialist_words (lower reason)) eqn:Es]].
  all: assert (Hnf : (false = true) <-> False) by (split; [discriminate | tauto]).
  all: repeat split; try discriminate; try reflexivity; try tauto.
  all: try (simpl; tauto).
  all: try exact Hempty; try exact Hsame; try exact Hcase.
Qed.

End TypeRecommender.

(* ====================================================================== *)
(** ** The Slot Finder *)
(* ====================================================================== *)

Lemma flat_mapM_In {A B} (f : A -> result (list B)) (l : list A) (r : list B) (x : B) :
  flat_mapM f l = Ok r -> In x r ->
  exists a ra, In a l /\ f a = Ok ra /\ In x ra.
Proof.
  revert r. induction l as [|a l IH]; intros r; simpl.
  - intros [= <-] [].
  - unfold mbind, result_bind.
    destruct (f a) as [xs|e] eqn:Ea; [|discriminate].
    destruct (flat_mapM f l) as [ys|e] eqn:El; [|discriminate].
    intros [= <-] Hin. apply in_app_or in Hin as [Hin|Hin].
    + exists a, xs. auto.
    + destruct (IH ys eq_refl Hin) as (a' & ra & Ha' & Hf & Hx).
      exists a', ra. auto.
Qed.

Lemma In_take {A} (n : nat) (l : list A) (x : A) : In x (take n l) -> In x l.
Proof.
  revert n. induction l as [|a l IH]; intros [|n]; simpl; try tauto.
  intros [->|H]; [now left | right; eauto].
Qed.

Section SlotFinder.

Context {py : PyText}.

Variable SCHEDULE_DATA : json.

(** Every returned slot comes from a schedule slot marked available, on a day
    that passes the date filter, that the time-of-day test kept. *)
Lemma get_available_slots_In (ty date tpref : json) (s : SlotInfo) :
  In s (get_available_slots SCHEDULE_DATA ty date tpref) ->
  exists (day_data slot : json) (available : json),
    py_get slot "available" = Ok available /\ truthy available = true
    /\ py_get day_data "date" = Ok (slot_date s)
    /\ py_get slot "start_time" = Ok (slot_start_time s)
    /\ py_get slot "end_time" = Ok (slot_end_time s)
    /\ schedule_duration SCHEDULE_DATA ty = Ok (slot_duration s)
    /\ time_preference_keeps tpref slot = Ok true
    /\ (truthy date = true -> py_eq (slot_date s) date = true).
Proof.
  unfold get_available_slots, get_available_slots_body.
  unfold mbind, result_bind.
  destruct (schedule_entry SCHEDULE_DATA ty) as [entry|e]; [|intros []].
  destruct (py_get_default entry "schedule" (JObj [])) as [type_schedule|e]; [|intros []].
  destruct type_schedule as [| | | | | |days]; try (intros []).
  destruct (flat_mapM _ days) as [all|e] eqn:Edays; [|intros []].
  simpl. intros Hin. apply In_take in Hin.
  destruct (flat_mapM_In _ _ _ _ Edays Hin) as ([day day_data] & ra & _ & Hday & Hra).
  unfold day_entries in Hday. unfold mbind, result_bind in Hday.
  destruct (if truthy date then _ else _) as [skip|e] eqn:Eskip; [|discriminate].
  destruct skip; [injection Hday as <-; destruct Hra|].
  destruct (py_get_default day_data "slots" (JArr [])) as [slots|e]; [|discriminate].
  destruct (py_iter slots) as [items|e]; [|discriminate].
  destruct (flat_mapM_In _ _ _ _ Hday Hra) as (slot & rs & _ & Hslot & Hrs).
  unfold slot_entry in Hslot. unfold mbind, result_bind in Hslot.
  destruct (py_get slot "available") as [available|e] eqn:Eav; [|discriminate].
  destruct (truthy available) eqn:Etr; [|injection Hslot as <-; destruct Hrs].
  destruct (py_get day_data "date") as [d|e] eqn:Ed; [|discriminate].
  destruct (py_get slot "start_time") as [st|e] eqn:Est; [|discriminate].
  destruct (py_get slot "end_time") as [et|e] eqn:Eet; [|discriminate].
  destruct (schedule_duration SCHEDULE_DATA ty) as [dur|e] eqn:Edur; [|discriminate].
  destruct (time_preference_keeps tpref slot) as [keep|e] eqn:Ekeep; [|discriminate].
  destruct keep; injection Hslot as <-; [|destruct Hrs].
  destruct Hrs as [<-|[]]. simpl.
  exists day_data, slot, available. repeat split; auto.
  intros Hdate. rewrite Hdate in Eskip. injection Eskip as Eskip.
  now apply negb_false_iff in Eskip.
Qed.

Lemma str_in_spec (x : string) (words : list string) :
  str_in x words = true <-> In x words.
Proof.
  unfold str_in. rewrite existsb_exists. split.
  - intros [w [Hw He]]. apply String.eqb_eq in He. now subst.
  - intros H. exists x. split; [exact H | apply String.eqb_refl].
Qed.

(** C2. With a time-of-day filter, every slot the Slot Finder returns has a
    start hour in the band asked for: below 12 for "morning" or "am", from 12
    up to but not including 17 for "afternoon" or "pm", 17 or more for
    "evening", whatever the letter case of the filter. *)
Theorem get_available_slots_time_band
    (appointment_type date : json) (time_preference : string) (s : SlotInfo) :
  In s (get_available_slots SCHEDULE_DATA appointment_type date (JStr time_preference)) ->
  (lower time_preference = "morning" \/ lower time_preference = "am" ->
     exists hour, slot_hour s = Some hour /\ hour < 12)
  /\ (lower time_preference = "afternoon" \/ lower time_preference = "pm" ->
        exists hour, slot_hour s = Some hour /\ 12 <= hour < 17)
  /\ (lower time_preference = "evening" ->
        exists hour, slot_hour s = Some hour /\ 17 <= hour).
Proof.
  intros Hin.
  destruct (get_available_slots_In _ _ _ _ Hin)
    as (day_data & slot & available & _ & _ & _ & Hst & _ & _ & Hkeep & _).
  unfold time_preference_keeps in Hkeep.
  destruct (truthy (JStr time_preference)) eqn:Etp.
  - unfold mbind, result_bind in Hkeep.
    destruct (start_hour slot) as [hour|e] eqn:Eh; [|discriminate].
    simpl in Hkeep. injection Hkeep as Hkeep.
    assert (Hs : slot_hour s = Some hour).
    { unfold start_hour in Eh. unfold mbind, result_bind in Eh.
      destruct slot as [| | | | | |kv]; try discriminate.
      unfold py_get, py_get_default in Hst. injection Hst as Hst.
      unfold py_item in Eh.
      destruct (dict_get kv "start_time") as [st|]; [|discriminate].
      simpl in Hst. unfold slot_hour. rewrite <- Hst.
      destruct st; try discriminate. simpl in Eh.
      destruct (int_of_string _); congruence. }
    unfold hour_kept in Hkeep.
    repeat split.
    + intros Hm. exists hour. split; [exact Hs|].
      assert (E : str_in (lower time_preference) ["morning"; "am"] = true).
      { apply str_in_spec. simpl. intuition. }
      rewrite E in Hkeep. simpl in Hkeep.
      destruct (12 <=? hour) eqn:E12; [discriminate | lia].
    + intros Hm. exists hour. split; [exact Hs|].
      assert (E : str_in (lower time_preference) ["afternoon"; "pm"] = true).
      { apply str_in_spec. simpl. intuition. }
      assert (E' : str_in (lower time_preference) ["morning"; "am"] = false).
      { destruct Hm as [-> | ->]; reflexivity. }
      rewrite E, E' in Hkeep. simpl in Hkeep.
      destruct (hour <? 12) eqn:E12; [discriminate|].
      destruct (17 <=? hour) eqn:E17; [discriminate | lia].
    + intros Hm. exists hour. split; [exact Hs|].
      rewrite Hm in Hkeep. simpl in Hkeep.
      destruct (hour <? 17) eqn:E17; [discriminate | lia].
  - simpl in Etp. apply negb_false_iff, String.eqb_eq in Etp. subst.
    rewrite (lower_ascii "" eq_refl). simpl.
    repeat split; [intros [H|H] | intros [H|H] | intros H]; discriminate.
Qed.

End SlotFinder.

Section SlotFinderSample.

#[local] Existing Instance ascii_text.

Lemma get_available_slots_time_band_witness :
  exists hour,
    slot_hour {| slot_day := "Monday"; slot_date := JStr "2025-01-06";
                 slot_start_time := JStr "09:00"; slot_end_time := JStr "09:30";
                 slot_duration := JInt 30 |} = Some hour
    /\ hour < 12.
Proof.
  refine (proj1 (get_available_slots_time_band sample_schedule
                   (JStr "general_consultation") JNull "Morning" _ _) _).
  - vm_compute. left. reflexivity.
  - left. reflexivity.
Defined.

End SlotFinderSample.

(* ====================================================================== *)
(** ** Reasoning about the steps of a chat call *)
(* ====================================================================== *)

Lemma M_bind_inv {A B} (m : M A) (f : A -> M B) (c c' : Cfg) (r : result B) :
  (m ≫= f) c = (c', r) ->
  (exists e, m c = (c', Raise e) /\ r = Raise e)
  \/ (exists a c1, m c = (c1, Ok a) /\ f a c1 = (c', r)).
Proof.
  unfold mbind, M_bind. destruct (m c) as [c1 [a|e]].
  - intros H. right. exists a, c1. auto.
  - intros [= <- <-]. left. exists e. auto.
Qed.

(** Split a hypothesis on a bind into its two outcomes. *)
Ltac bind_inv H :=
  let e := fresh "e" in
  let a := fresh "a" in
  let c1 := fresh "c" in
  let Ha := fresh "Hstep" in
  apply M_bind_inv in H as [(e & H & ->) | (a & c1 & Ha & H)].

Lemma bind_lift_ok {A B} (a : A) (f : A -> M B) (c : Cfg) :
  (lift (Ok a) ≫= f) c = f a c.
Proof. reflexivity. Qed.

Lemma bind_get_state {B} (f : ConversationState -> M B) (c : Cfg) :
  (get_state ≫= f) c = f (cur c) c.
Proof. reflexivity. Qed.

(** The same when the result is known not to be an exception. *)
Ltac bind_ok H :=
  let e := fresh "e" in
  let a := fresh "a" in
  let c1 := fresh "c" in
  let Ha := fresh "Hstep" in
  let Hbad := fresh "Hbad" in
  apply M_bind_inv in H as [(e & _ & Hbad) | (a & c1 & Ha & H)];
  [discriminate Hbad|].

Section Frames.

Context {R : relation Cfg}.

Lemma frames_weaken {A} (R' : relation Cfg) (m : M A) :
  (forall c c', R' c c' -> R c c') -> frames R' m -> frames R m.
Proof. intros Hw Hm c c' r H. apply Hw. eapply Hm, H. Qed.

Lemma frames_bind `{!Transitive R} {A B} (m : M A) (f : A -> M B) :
  frames R m -> (forall a, frames R (f a)) -> frames R (m ≫= f).
Proof.
  intros Hm Hf c c' r H. bind_inv H.
  - eapply Hm, H.
  - etransitivity; [eapply Hm, Hstep | eapply Hf, H].
Qed.

Lemma frames_lift `{!Reflexive R} {A} (x : result A) : frames R (lift x).
Proof. intros c c' r [= <- _]. reflexivity. Qed.

Lemma frames_ret `{!Reflexive R} {A} (a : A) : frames R (ret a).
Proof. intros c c' r [= <- _]. reflexivity. Qed.

Lemma frames_pass `{!Reflexive R} : frames R pass.
Proof. apply frames_ret. Qed.

Lemma frames_get_state `{!Reflexive R} : frames R get_state.
Proof. intros c c' r [= <- _]. reflexivity. Qed.

Lemma frames_update (f : ConversationState -> ConversationState) :
  (forall c, R c {| cur := f (cur c); ledger := ledger c |}) -> frames R (update f).
Proof. intros Hf c c' r [= <- _]. apply Hf. Qed.

Lemma frames_with_state `{!Reflexive R} {B} (f : ConversationState -> M B) :
  (forall c, frames (fun c0 c' => c0 = c -> R c c') (f (cur c))) ->
  frames R (get_state ≫= f).
Proof.
  intros Hf c c' r H. bind_inv H.
  - discriminate H.
  - injection Hstep as <- <-. eapply Hf; [exact H | reflexivity].
Qed.

End Frames.

#[local] Instance same_ledger_po : PreOrder same_ledger.
Proof. split; unfold same_ledger; [now intros c | intros a b c; congruence]. Qed.

#[local] Instance same_patient_and_booking_po : PreOrder same_patient_and_booking.
Proof.
  split; unfold same_patient_and_booking; [now intros c | ].
  intros a b c [? ?] [? ?]; split; congruence.
Qed.

#[local] Instance same_but_slot_po : PreOrder same_but_slot.
Proof.
  split; unfold same_but_slot; [intros c; repeat split | ].
  intros a b c H1 H2.
  destruct H1 as (? & ? & ? & ? & ? & ? & ? & ? & ? & ?).
  destruct H2 as (? & ? & ? & ? & ? & ? & ? & ? & ? & ?).
  repeat split; congruence.
Qed.

#[local] Instance guarded_kept_po : PreOrder guarded_kept.
Proof.
  split; unfold guarded_kept; [intros c; repeat split | ].
  intros a b c (Hn & He & Hp & Hr) (Hn' & He' & Hp' & Hr').
  repeat split; intros H.
  - rewrite <- (Hn H). apply Hn'. now rewrite (Hn H).
  - rewrite <- (He H). apply He'. now rewrite (He H).
  - rewrite <- (Hp H). apply Hp'. now rewrite (Hp H).
  - rewrite <- (Hr H). apply Hr'. now rewrite (Hr H).
Qed.

#[local] Instance keeps_guarded_po : PreOrder keeps_guarded.
Proof.
  split; unfold keeps_guarded.
  - intros c. reflexivity.
  - intros a b c H1 H2. etransitivity; eassumption.
Qed.

Ltac frames_steps :=
  repeat match goal with
         | |- frames _ (lift _) => apply frames_lift
         | |- frames _ (ret _) => apply frames_ret
         | |- frames _ pass => apply frames_pass
         | |- frames _ get_state => apply frames_get_state
         | |- frames _ (update _) => apply frames_update; intros ?
         | |- frames _ (_ ≫= _) => apply frames_bind; [ | intros ?]
         end.

Ltac split_if :=
  repeat match goal with
         | |- context [if ?b then _ else _] => destruct b eqn:?
         end.

Section ChatProperties.

Context {py : PyText}.

Variable SCHEDULE_DATA : json.
Variable py_str : json -> string.

Lemma check_restart_spec (msg : string) (c : Cfg) :
  check_restart msg c =
  ({| cur := if restart_requested (cur c) msg then reset_state (cur c) else cur c;
      ledger := ledger c |}, Ok tt).
Proof.
  unfold check_restart, when, mbind, M_bind, get_state, update, pass, ret.
  destruct (restart_requested (cur c) msg); [reflexivity | now destruct c].
Qed.

Lemma check_restart_same_ledger (msg : string) : frames same_ledger (check_restart msg).
Proof. intros c c' r. rewrite check_restart_spec. now intros [= <- _]. Qed.

Lemma append_message_same_ledger (m : Message) : frames same_ledger (append_message m).
Proof. unfold append_message. frames_steps. reflexivity. Qed.

Lemma append_message_keeps_guarded (m : Message) : frames keeps_guarded (append_message m).
Proof. unfold append_message. frames_steps. repeat split. Qed.

Lemma append_message_same_patient_and_booking (m : Message) :
  frames same_patient_and_booking (append_message m).
Proof. unfold append_message. frames_steps. split; reflexivity. Qed.

Lemma merge_extracted_same_ledger (extracted : json) :
  frames same_ledger (merge_extracted extracted).
Proof. unfold merge_extracted. frames_steps; reflexivity. Qed.

Lemma merge_extracted_keeps_guarded (extracted : json) :
  frames keeps_guarded (merge_extracted extracted).
Proof.
  unfold merge_extracted. frames_steps.
  all: unfold keeps_guarded, guarded_kept, merge_reason, merge_appointment_type, merge_name,
         merge_phone, merge_email, merge_date, merge_time_preference.
  all: split_if; simpl; repeat split; intros Ht; try reflexivity.
  all: match goal with
       | H : _ && negb _ = true |- _ =>
           apply andb_true_iff in H as [_ H]; rewrite Ht in H; discriminate H
       end.
Qed.

Lemma handle_slot_same_but_slot (extracted : json) :
  frames same_but_slot (handle_slot SCHEDULE_DATA extracted).
Proof.
  unfold handle_slot.
  apply frames_bind; [frames_steps | intros specific].
  destruct (truthy specific).
  - frames_steps. unfold same_but_slot. simpl. repeat split.
  - apply frames_bind; [frames_steps | intros selection].
    apply frames_with_state. intros c.
    destruct (truthy selection && _); [|intros c0 c' r [= <- _] ->; reflexivity].
    intros c0 c' r H Hc. subst c0. bind_inv H.
    + injection H as <- _. reflexivity.
    + injection Hstep as <- Hsel. injection H as <- _.
      unfold select_by_number in Hsel.
      destruct (py_int selection) as [n|[]]; try discriminate;
        [|injection Hsel as <-; unfold same_but_slot; simpl; repeat split].
      destruct (_ && _); [|injection Hsel as <-; unfold same_but_slot; simpl; repeat split].
      destruct (_ !! _); injection Hsel as <-; unfold same_but_slot; simpl; repeat split.
Qed.

Lemma handle_slot_same_ledger (extracted : json) :
  frames same_ledger (handle_slot SCHEDULE_DATA extracted).
Proof.
  eapply frames_weaken; [|apply handle_slot_same_but_slot].
  intros c c' H. apply H.
Qed.

Lemma handle_slot_keeps_guarded (extracted : json) :
  frames keeps_guarded (handle_slot SCHEDULE_DATA extracted).
Proof.
  eapply frames_weaken; [|apply handle_slot_same_but_slot].
  intros c c' (_ & _ & _ & _ & _ & Hp & _ & _ & _ & Hr).
  unfold keeps_guarded, guarded_kept. rewrite Hp, Hr. auto.
Qed.

Lemma absorb_same_ledger (request : ChatRequest) (inp : Inputs) :
  frames same_ledger (absorb SCHEDULE_DATA request inp).
Proof.
  unfold absorb.
  apply frames_bind; [apply append_message_same_ledger | intros _].
  apply frames_bind; [frames_steps | intros extracted].
  apply frames_bind; [apply merge_extracted_same_ledger | intros _].
  apply handle_slot_same_ledger.
Qed.

Lemma absorb_keeps_guarded (request : ChatRequest) (inp : Inputs) :
  frames keeps_guarded (absorb SCHEDULE_DATA request inp).
Proof.
  unfold absorb.
  apply frames_bind; [apply append_message_keeps_guarded | intros _].
  apply frames_bind; [frames_steps | intros extracted].
  apply frames_bind; [apply merge_extracted_keeps_guarded | intros _].
  apply handle_slot_keeps_guarded.
Qed.

Lemma finalize_same_patient_and_booking (inp : Inputs) :
  frames same_patient_and_booking (finalize py_str inp).
Proof.
  unfold finalize. frames_steps.
  - intros c c' r. unfold call_book_appointment, book_appointment.
    intros [= <- _]. split; reflexivity.
  - split; reflexivity.
Qed.

Lemma respond_same_patient_and_booking (ia : json) (inp : Inputs) :
  frames same_patient_and_booking (respond SCHEDULE_DATA py_str ia inp).
Proof.
  unfold respond. frames_steps.
  - destruct a1; [apply finalize_same_patient_and_booking | frames_steps].
  - destruct a2 as [booking_result response_text].
    apply frames_bind; [apply append_message_same_patient_and_booking|].
    intros _. frames_steps.
Qed.

Lemma respond_keeps_guarded (ia : json) (inp : Inputs) :
  frames keeps_guarded (respond SCHEDULE_DATA py_str ia inp).
Proof.
  eapply frames_weaken; [|apply respond_same_patient_and_booking].
  intros c c' [Hp Hb]. unfold keeps_guarded, guarded_kept. rewrite Hp, Hb. auto.
Qed.

Lemma finalize_ledger (inp : Inputs) (c c' : Cfg) (r : result (json * string)) :
  finalize py_str inp c = (c', r) -> ledger c' <> ledger c ->
  exists bd, booking_data_of (cur c) = Ok bd.
Proof.
  intros H Hne. unfold finalize in H.
  bind_inv H; [discriminate H|]. injection Hstep as <- <-.
  bind_inv H; [injection H as <- _; now destruct Hne|].
  injection Hstep as <- Hbd. eauto.
Qed.

(** The ledger changes only in the booking branch of [respond]. *)
Lemma respond_ledger (ia : json) (inp : Inputs) (c c' : Cfg) (r : result json) :
  respond SCHEDULE_DATA py_str ia inp c = (c', r) -> ledger c' <> ledger c ->
  can_book ia (cur c) = Ok true /\ exists bd, booking_data_of (cur c) = Ok bd.
Proof.
  intros H Hne. unfold respond in H.
  bind_inv H; [injection H as <- _; now destruct Hne|].
  injection Hstep as <- Hna.
  bind_inv H; [discriminate H|]. injection Hstep as <- <-.
  bind_inv H; [injection H as <- _; now destruct Hne|]. injection Hstep as <- Hcb.
  assert (Hfin : forall c1 o, (if a0 then finalize py_str inp
                               else ret (JNull, generated_response inp)) c = (c1, o) ->
                 ledger c1 <> ledger c ->
                 a0 = true /\ exists bd, booking_data_of (cur c) = Ok bd).
  { intros c1 o Ho Hc1. destruct a0.
    - split; [reflexivity | eapply finalize_ledger; eauto].
    - injection Ho as <- _. now destruct Hc1. }
  bind_inv H.
  - destruct (Hfin _ _ H Hne) as [-> Hbd]. auto.
  - assert (Ht : same_ledger c0 c').
    { destruct a1 as [booking_result response_text].
      refine ((_ : frames same_ledger _) _ _ _ H).
      frames_steps; first [apply append_message_same_ledger | reflexivity]. }
    unfold same_ledger in Ht. rewrite Ht in Hne.
    destruct (Hfin _ _ Hstep Hne) as [-> Hbd]. auto.
Qed.

Lemma chat_session_ledger (request : ChatRequest) (inp : Inputs) (c c' : Cfg)
    (r : result json) :
  chat_session SCHEDULE_DATA py_str request inp c = (c', r) ->
  ledger c' <> ledger c ->
  exists st,
    can_book (intent_analysis inp) st = Ok true
    /\ (exists bd, booking_data_of st = Ok bd)
    /\ patient_info (cur c') = patient_info st
    /\ booking_details (cur c') = booking_details st.
Proof.
  intros H Hne. unfold chat_session in H.
  bind_inv H.
  { apply check_restart_same_ledger in H. now destruct Hne. }
  apply check_restart_same_ledger in Hstep.
  bind_inv H.
  { apply absorb_same_ledger in H. unfold same_ledger in *. destruct Hne. congruence. }
  apply absorb_same_ledger in Hstep0.
  assert (Hne' : ledger c' <> ledger c1) by (unfold same_ledger in *; congruence).
  destruct (respond_ledger _ _ _ _ _ H Hne') as [Hcb Hbd].
  apply respond_same_patient_and_booking in H as [Hp Hb].
  exists (cur c1). auto.
Qed.

(** What a true [can_book] and a built [booking_data] say of the session. *)
Lemma can_book_true (ia : json) (st : ConversationState) :
  can_book ia st = Ok true ->
  (exists ready, py_get ia "ready_to_book" = Ok ready /\ truthy ready = true)
  /\ truthy (name (patient_info st)) = true
  /\ truthy (email (patient_info st)) = true
  /\ truthy (phone (patient_info st)) = true
  /\ truthy (selected_slot (booking_details st)) = true.
Proof.
  unfold can_book, mbind, result_bind.
  destruct (py_get ia "ready_to_book") as [ready|e]; [|discriminate].
  destruct (truthy ready) eqn:E1; [|discriminate].
  destruct (truthy (name (patient_info st))) eqn:E2; [|discriminate].
  destruct (truthy (email (patient_info st))) eqn:E3; [|discriminate].
  destruct (truthy (phone (patient_info st))) eqn:E4; [|discriminate].
  destruct (truthy (selected_slot (booking_details st))) eqn:E5; [|discriminate].
  intros _. repeat split; eauto.
Qed.

Lemma py_item_ok (o : json) (k : string) (v : json) :
  py_item o k = Ok v -> exists kv, o = JObj kv /\ dict_get kv k = Some v.
Proof.
  destruct o as [| | | | | |kv]; try discriminate. simpl.
  destruct (dict_get kv k) as [v'|] eqn:E; [|discriminate].
  intros [= <-]. eauto.
Qed.

Lemma booking_data_of_ok (st : ConversationState) (bd : list (string * json)) :
  booking_data_of st = Ok bd ->
  exists kv d s e,
    selected_slot (booking_details st) = JObj kv
    /\ dict_get kv "date" = Some d
    /\ dict_get kv "start_time" = Some s
    /\ dict_get kv "end_time" = Some e.
Proof.
  unfold booking_data_of, mbind, result_bind.
  destruct (appointment_type_info _) as [info|?]; [|discriminate].
  destruct (py_get info "name") as [?|?]; [|discriminate].
  destruct (py_get info "duration") as [?|?]; [|discriminate].
  destruct (py_item _ "date") as [d|?] eqn:Ed; [|discriminate].
  destruct (py_item _ "start_time") as [s|?] eqn:Es; [|discriminate].
  destruct (py_item _ "end_time") as [e|?] eqn:Ee; [|discriminate].
  intros _.
  apply py_item_ok in Ed as (kv & Hkv & Hd).
  apply py_item_ok in Es as (kv1 & Hkv1 & Hs).
  apply py_item_ok in Ee as (kv2 & Hkv2 & He).
  rewrite Hkv in Hkv1, Hkv2. injection Hkv1 as <-. injection Hkv2 as <-.
  exists kv, d, s, e. auto.
Qed.

(** C1, amended.  A chat call changes the Booking Ledger only if the session,
    as the call leaves it, has a non-empty name, email and phone and a
    selected slot that is a dict with an [end_time] key; the value under that
    key is not looked at and may be empty. *)
Theorem chat_books_only_when_ready (request : ChatRequest) (inp : Inputs)
    (w w' : World) (r : result json) :
  chat SCHEDULE_DATA py_str request inp w = (w', r) ->
  bookings w' <> bookings w ->
  exists st',
    sessions w' !! request_session_id request = Some st'
    /\ ready_for_booking carries_end_time st'.
Proof.
  unfold chat.
  destruct (chat_session _ _ _ _ _) as [c' r'] eqn:Hc.
  intros [= <- <-] Hne. simpl in Hne.
  exists (cur c'). split; [apply lookup_insert_eq|].
  destruct (chat_session_ledger _ _ _ _ _ Hc Hne) as (st & Hcb & [bd Hbd] & Hp & Hb).
  apply can_book_true in Hcb as (_ & Hn & He & Hph & Hs).
  apply booking_data_of_ok in Hbd as (kv & d & s & e & Hkv & _ & _ & Hend).
  unfold ready_for_booking, carries_end_time. rewrite Hp, Hb.
  repeat split; auto. exists kv, e. auto.
Qed.

(* ---------------------------------------------------------------------- *)
(** *** Restart *)

(** C7. In the complete phase a message that contains "new", "another",
    "book" or "schedule" resets patient info, booking details, collected
    flags and phase to their initial values; session identifier and message
    history are as before.  The call then goes on as it would on the reset
    session. *)
Theorem chat_restart_resets (request : ChatRequest) (inp : Inputs) (w : World)
    (st : ConversationState) :
  sessions w !! request_session_id request = Some st ->
  phase st = COMPLETE ->
  has_restart_word (message request) ->
  check_restart (message request) {| cur := st; ledger := bookings w |}
    = ({| cur := restarted st; ledger := bookings w |}, Ok tt)
  /\ session_id (restarted st) = session_id st
  /\ messages (restarted st) = messages st
  /\ phase (restarted st) = GREETING
  /\ patient_info (restarted st) = PatientInfo_new
  /\ booking_details (restarted st) = BookingDetails_new
  /\ collected_info (restarted st) = collected_info_new
  /\ chat SCHEDULE_DATA py_str request inp w
     = chat SCHEDULE_DATA py_str request inp
         {| sessions := <[request_session_id request := restarted st]> (sessions w);
            bookings := bookings w |}.
Proof.
  intros Hst Hph Hword.
  assert (Hreq : restart_requested st (message request) = true).
  { unfold restart_requested. rewrite Hph.
    rewrite bool_decide_eq_true_2 by reflexivity. rewrite andb_true_l.
    apply any_in_spec. exact Hword. }
  assert (Hreq' : restart_requested (restarted st) (message request) = false).
  { reflexivity. }
  assert (Hcheck : forall l, check_restart (message request) {| cur := st; ledger := l |}
                   = ({| cur := restarted st; ledger := l |}, Ok tt)).
  { intros l. rewrite check_restart_spec. unfold cur at 1 2 3. rewrite Hreq. reflexivity. }
  assert (Hcheck' : forall l,
            check_restart (message request) {| cur := restarted st; ledger := l |}
            = ({| cur := restarted st; ledger := l |}, Ok tt)).
  { intros l. rewrite check_restart_spec. unfold cur at 1 2. rewrite Hreq'. reflexivity. }
  split; [apply Hcheck|]. do 6 (split; [reflexivity|]).
  unfold chat. simpl. rewrite Hst, lookup_insert_eq. simpl.
  unfold chat_session.
  unfold mbind at 1 3, M_bind at 1 3. rewrite Hcheck, Hcheck'.
  destruct (_ ≫= _) as [c r]. now rewrite insert_insert_eq.
Qed.

(* ---------------------------------------------------------------------- *)
(** *** First value wins *)

Lemma chat_session_keeps_guarded (request : ChatRequest) (inp : Inputs)
    (c c' : Cfg) (r : result json) :
  restart_requested (cur c) (message request) = false ->
  chat_session SCHEDULE_DATA py_str request inp c = (c', r) ->
  keeps_guarded c c'.
Proof.
  intros Hno H. unfold chat_session in H.
  bind_inv H.
  { rewrite check_restart_spec in H. discriminate H. }
  rewrite check_restart_spec, Hno in Hstep. injection Hstep as <- _.
  destruct c as [st l]. simpl in H.
  refine ((_ : frames keeps_guarded _) _ _ _ H).
  apply frames_bind; [apply absorb_keeps_guarded | intros _].
  apply respond_keeps_guarded.
Qed.

Lemma chat_guarded_kept (sid : string) (request : ChatRequest) (inp : Inputs)
    (w : World) (st : ConversationState) :
  sessions w !! sid = Some st ->
  (request_session_id request = sid -> restart_requested st (message request) = false) ->
  exists st',
    sessions (fst (chat SCHEDULE_DATA py_str request inp w)) !! sid = Some st'
    /\ guarded_kept st st'.
Proof.
  intros Hst Hno. unfold chat.
  destruct (chat_session _ _ _ _ _) as [c' r] eqn:Hc. simpl.
  destruct (decide (request_session_id request = sid)) as [Heq|Hne].
  - rewrite Heq in *. rewrite Hst in Hc. simpl in Hc.
    exists (cur c'). split; [apply lookup_insert_eq|].
    apply (chat_session_keeps_guarded request inp {| cur := st; ledger := bookings w |}
             c' r (Hno eq_refl) Hc).
  - exists st. split; [now rewrite lookup_insert_ne | reflexivity].
Qed.

(** C6. Within one booking cycle each of name, email and phone is set at
    most once: once a field of a session is non-empty, no chat call of the
    run changes the stored value, whatever the intent analysis extracts
    (and whether or not a call ends in an exception). *)
Theorem contact_fields_set_once (sid : string) (calls : list (ChatRequest * Inputs))
    (w : World) (st : ConversationState) :
  sessions w !! sid = Some st ->
  one_cycle SCHEDULE_DATA py_str sid calls w ->
  exists st',
    sessions (run_chats SCHEDULE_DATA py_str calls w) !! sid = Some st'
    /\ (truthy (name (patient_info st)) = true ->
          name (patient_info st') = name (patient_info st))
    /\ (truthy (email (patient_info st)) = true ->
          email (patient_info st') = email (patient_info st))
    /\ (truthy (phone (patient_info st)) = true ->
          phone (patient_info st') = phone (patient_info st)).
Proof.
  intros Hst Hcycle.
  assert (H : exists st', sessions (run_chats SCHEDULE_DATA py_str calls w) !! sid = Some st'
                          /\ guarded_kept st st').
  { revert w st Hst Hcycle. induction calls as [|[request inp] rest IH];
      intros w st Hst Hcycle; simpl in *.
    - exists st. split; [exact Hst | reflexivity].
    - destruct Hcycle as [Hno Hrest].
      destruct (chat_guarded_kept sid request inp w st Hst) as (st1 & Hst1 & Hk1).
      { intros Heq. now apply Hno. }
      destruct (IH _ _ Hst1 Hrest) as (st' & Hst' & Hk').
      exists st'. split; [exact Hst' | etransitivity; eassumption]. }
  destruct H as (st' & Hst' & Hn & He & Hp & _). eauto.
Qed.

(* ---------------------------------------------------------------------- *)
(** *** The merge of the extracted fields *)

Lemma merge_extracted_spec (ex : list (string * json)) (c : Cfg) :
  merge_extracted (JObj ex) c = ({| cur := merge_all ex (cur c); ledger := ledger c |}, Ok tt).
Proof. reflexivity. Qed.

Lemma absorb_spec (request : ChatRequest) (inp : Inputs)
    (ex : list (string * json)) (c : Cfg) :
  py_get_default (intent_analysis inp) "extracted" (JObj []) = Ok (JObj ex) ->
  absorb SCHEDULE_DATA request inp c =
  handle_slot SCHEDULE_DATA (JObj ex)
    {| cur := merge_all ex
                (set_messages (messages (cur c) ++
                   [{| role := "user"; content := message request;
                       timestamp := Some (now_user inp) |}])%list (cur c));
       ledger := ledger c |}.
Proof.
  intros Hex. unfold absorb, append_message, update, lift.
  unfold mbind at 1 2 3, M_bind at 1 2 3. rewrite Hex. reflexivity.
Qed.

(** A chat call whose intent analysis has a dict under [extracted] merges it,
    runs the slot step and, unless that raised, the response step. *)
Lemma chat_session_steps (request : ChatRequest) (inp : Inputs)
    (ex : list (string * json)) (c c' : Cfg) (r : result json) :
  py_get_default (intent_analysis inp) "extracted" (JObj []) = Ok (JObj ex) ->
  chat_session SCHEDULE_DATA py_str request inp c = (c', r) ->
  let cm := {| cur := merge_all ex (before_merge request inp (cur c));
               ledger := ledger c |} in
  (exists e, handle_slot SCHEDULE_DATA (JObj ex) cm = (c', Raise e) /\ r = Raise e)
  \/ (exists cs, handle_slot SCHEDULE_DATA (JObj ex) cm = (cs, Ok tt)
        /\ respond SCHEDULE_DATA py_str (intent_analysis inp) inp cs = (c', r)).
Proof.
  intros Hex H cm. unfold chat_session in H.
  unfold mbind at 1 2, M_bind at 1 2 in H.
  rewrite check_restart_spec, (absorb_spec _ _ _ _ Hex) in H.
  change (handle_slot SCHEDULE_DATA (JObj ex) _) with (handle_slot SCHEDULE_DATA (JObj ex) cm) in H.
  destruct (handle_slot SCHEDULE_DATA (JObj ex) cm) as [cs [[]|e]].
  - right. exists cs. auto.
  - left. exists e. injection H as <- <-. auto.
Qed.

(** What the call leaves of the merged fields: all but the selected slot. *)
Lemma chat_session_merged (request : ChatRequest) (inp : Inputs)
    (ex : list (string * json)) (c c' : Cfg) (r : result json) :
  py_get_default (intent_analysis inp) "extracted" (JObj []) = Ok (JObj ex) ->
  chat_session SCHEDULE_DATA py_str request inp c = (c', r) ->
  let merged := merge_all ex (before_merge request inp (cur c)) in
  patient_info (cur c') = patient_info merged
  /\ appointment_type (booking_details (cur c')) = appointment_type (booking_details merged)
  /\ preferred_date (booking_details (cur c')) = preferred_date (booking_details merged)
  /\ preferred_time (booking_details (cur c')) = preferred_time (booking_details merged)
  /\ reason (booking_details (cur c')) = reason (booking_details merged).
Proof.
  intros Hex H merged.
  destruct (chat_session_steps _ _ _ _ _ _ Hex H) as [(e & Hh & _) | (cs & Hh & Hr)].
  - apply handle_slot_same_but_slot in Hh.
    destruct Hh as (_ & _ & _ & _ & _ & H6 & H7 & H8 & H9 & H10). auto.
  - apply handle_slot_same_but_slot in Hh.
    apply respond_same_patient_and_booking in Hr as [Hp Hb].
    destruct Hh as (_ & _ & _ & _ & _ & H6 & H7 & H8 & H9 & H10).
    rewrite Hp, Hb. auto.
Qed.

Ltac unfold_merge :=
  unfold merge_all, merge_time_preference, merge_date, merge_email, merge_phone,
    merge_name, merge_appointment_type, merge_reason.

Lemma merge_all_appointment_type (ex : list (string * json)) (st : ConversationState) :
  truthy (extracted_get ex "appointment_type") = true ->
  appointment_type (booking_details (merge_all ex st)) = extracted_get ex "appointment_type".
Proof. intros Hv. unfold_merge. rewrite Hv. split_if; reflexivity. Qed.

Lemma merge_all_preferred_date (ex : list (string * json)) (st : ConversationState) :
  truthy (extracted_get ex "date") = true ->
  preferred_date (booking_details (merge_all ex st)) = extracted_get ex "date".
Proof. intros Hv. unfold_merge. rewrite Hv. split_if; reflexivity. Qed.

Lemma merge_all_preferred_time (ex : list (string * json)) (st : ConversationState) :
  truthy (extracted_get ex "time_preference") = true ->
  preferred_time (booking_details (merge_all ex st)) = extracted_get ex "time_preference".
Proof. intros Hv. unfold_merge. rewrite Hv. split_if; reflexivity. Qed.

Lemma merge_all_selected_slot (ex : list (string * json)) (st : ConversationState) :
  selected_slot (booking_details (merge_all ex st)) = selected_slot (booking_details st).
Proof. unfold_merge. split_if; reflexivity. Qed.

(** C9, amended.  On every chat call in which the intent analysis extracts a
    truthy value (not null, not empty, not zero) for the appointment type,
    the date or the time preference, that value replaces whatever the session
    stored for it.  Reason, name, email and phone are behind an already-set
    check: a stored value of these is kept (no restart being asked for). *)
Theorem chat_overwrites_preferences (request : ChatRequest) (inp : Inputs)
    (w w' : World) (r : result json) (ex : list (string * json)) :
  py_get_default (intent_analysis inp) "extracted" (JObj []) = Ok (JObj ex) ->
  chat SCHEDULE_DATA py_str request inp w = (w', r) ->
  exists st',
    sessions w' !! request_session_id request = Some st'
    /\ (forall v, dict_get ex "appointment_type" = Some v -> truthy v = true ->
          appointment_type (booking_details st') = v)
    /\ (forall v, dict_get ex "date" = Some v -> truthy v = true ->
          preferred_date (booking_details st') = v)
    /\ (forall v, dict_get ex "time_preference" = Some v -> truthy v = true ->
          preferred_time (booking_details st') = v)
    /\ (forall st, sessions w !! request_session_id request = Some st ->
          restart_requested st (message request) = false ->
          guarded_kept st st').
Proof.
  intros Hex. unfold chat.
  destruct (chat_session _ _ _ _ _) as [c' r'] eqn:Hc. intros [= <- <-]. simpl.
  exists (cur c'). split; [apply lookup_insert_eq|].
  destruct (chat_session_merged _ _ _ _ _ _ Hex Hc) as (_ & Hty & Hd & Ht & _).
  simpl in Hty, Hd, Ht.
  split; [|split; [|split]].
  - intros v Hv Htr. rewrite Hty. rewrite merge_all_appointment_type;
      unfold extracted_get; rewrite Hv; [reflexivity | exact Htr].
  - intros v Hv Htr. rewrite Hd. rewrite merge_all_preferred_date;
      unfold extracted_get; rewrite Hv; [reflexivity | exact Htr].
  - intros v Hv Htr. rewrite Ht. rewrite merge_all_preferred_time;
      unfold extracted_get; rewrite Hv; [reflexivity | exact Htr].
  - intros st Hst Hno. rewrite Hst in Hc. simpl in Hc.
    apply (chat_session_keeps_guarded request inp {| cur := st; ledger := bookings w |}
             c' r' Hno Hc).
Qed.

(* ---------------------------------------------------------------------- *)
(** *** The response *)

Lemma finalize_ok (inp : Inputs) (c c' : Cfg) (booking : json) (text : string) :
  finalize py_str inp c = (c', Ok (booking, text)) ->
  exists items, booking = JObj items.
Proof.
  intros H. unfold finalize in H.
  bind_ok H. injection Hstep as <- <-.
  bind_ok H. injection Hstep as <- Hbd.
  bind_ok H.
  unfold call_book_appointment, book_appointment in Hstep.
  injection Hstep as <- <-.
  bind_ok H. injection Hstep as <- _.
  bind_ok H. injection Hstep as <- _.
  bind_ok H. injection Hstep as <- _.
  bind_ok H. injection Hstep as <- _.
  bind_ok H. injection Hstep as <- _.
  injection H as _ <- _. eauto.
Qed.

(** A response is the [envelope] of the session the call leaves, with the
    booking record when the readiness check passed and [None] otherwise. *)
Lemma respond_ok (ia : json) (inp : Inputs) (c c' : Cfg) (env : json) :
  respond SCHEDULE_DATA py_str ia inp c = (c', Ok env) ->
  exists next_action ready booking text intent,
    py_get ia "next_action" = Ok next_action
    /\ can_book ia (cur c) = Ok ready
    /\ env = envelope (cur c') text intent (shown_slots SCHEDULE_DATA next_action (cur c))
               ready booking next_action
    /\ (if ready then exists items, booking = JObj items else booking = JNull).
Proof.
  intros H. unfold respond in H.
  bind_ok H. injection Hstep as <- Hna.
  bind_ok H. injection Hstep as <- <-.
  bind_ok H. injection Hstep as <- Hcb.
  bind_ok H. destruct a1 as [booking text].
  bind_ok H.
  bind_ok H. injection Hstep1 as <- <-.
  bind_ok H. injection Hstep1 as <- Hint.
  injection H as <- <-.
  exists a, a0, booking, text. eexists.
  split; [exact Hna | split; [exact Hcb | split; [reflexivity|]]].
  destruct a0.
  - eapply finalize_ok, Hstep.
  - now injection Hstep as _ <- _.
Qed.

Lemma shown_slots_ext (next_action : json) (st st' : ConversationState) :
  booking_details st' = booking_details st ->
  shown_slots SCHEDULE_DATA next_action st' = shown_slots SCHEDULE_DATA next_action st.
Proof. intros H. unfold shown_slots. now rewrite H. Qed.

(** C10. In the response of a chat call that finalizes a booking (its
    [booking] field is not null) [available_slots] is the empty list,
    whatever slot list the call computed; the computed list, the one for the
    [next_action] of the call and the booking details of the session, is
    returned exactly when no booking was created. *)
Theorem chat_response_slots (request : ChatRequest) (inp : Inputs)
    (w w' : World) (env : json) :
  chat SCHEDULE_DATA py_str request inp w = (w', Ok env) ->
  exists booking slots st' next_action,
    py_get env "booking" = Ok booking
    /\ py_get env "available_slots" = Ok (JArr slots)
    /\ sessions w' !! request_session_id request = Some st'
    /\ py_get (intent_analysis inp) "next_action" = Ok next_action
    /\ (booking <> JNull -> slots = [])
    /\ (booking = JNull ->
          slots = map slot_dict (shown_slots SCHEDULE_DATA next_action st')).
Proof.
  unfold chat.
  destruct (chat_session _ _ _ _ _) as [c' r'] eqn:Hc. intros [= <- ->].
  unfold chat_session in Hc. bind_ok Hc. bind_ok Hc.
  lazymatch type of Hc with respond _ _ _ _ ?x = _ => rename x into c1 end.
  destruct (respond_ok _ _ _ _ _ Hc)
    as (next_action & ready & booking & text & intent & Hna & _ & -> & Hb).
  apply respond_same_patient_and_booking in Hc as [_ Hbd].
  exists booking, (if ready then [] else map slot_dict (shown_slots SCHEDULE_DATA next_action (cur c1))),
    (cur c'), next_action.
  split; [reflexivity|]. split; [reflexivity|].
  split; [simpl; apply lookup_insert_eq|]. split; [exact Hna|].
  destruct ready.
  - split; [reflexivity|]. destruct Hb as [items ->]. discriminate.
  - split; [intros Hne; now destruct Hne|]. intros _.
    now rewrite (shown_slots_ext next_action (cur c1) (cur c') Hbd).
Qed.

(* ---------------------------------------------------------------------- *)
(** *** Slot selection *)

Lemma merge_all_type_set_or_none (ex : list (string * json)) (st : ConversationState) :
  type_set_or_none st -> type_set_or_none (merge_all ex st).
Proof.
  intros Hst. unfold type_set_or_none.
  destruct (truthy (extracted_get ex "appointment_type")) eqn:Hv.
  - right. now rewrite merge_all_appointment_type.
  - replace (appointment_type (booking_details (merge_all ex st)))
      with (appointment_type (booking_details st)); [exact Hst|].
    unfold_merge. rewrite Hv. split_if; reflexivity.
Qed.

Lemma before_merge_type_set_or_none (request : ChatRequest) (inp : Inputs)
    (st : ConversationState) :
  type_set_or_none st -> type_set_or_none (before_merge request inp st).
Proof.
  intros Hst. unfold before_merge, type_set_or_none.
  destruct (restart_requested st (message request)); simpl; [now left | exact Hst].
Qed.

Lemma get_available_slots_no_type (d tp : json) :
  get_available_slots SCHEDULE_DATA JNull d tp = [].
Proof.
  unfold get_available_slots, get_available_slots_body, schedule_entry.
  destruct SCHEDULE_DATA; reflexivity.
Qed.

Lemma find_matching_first (results : list SlotInfo) (d s : json) (a : SlotInfo) :
  find_matching results d s = Some a -> first_match d s results a.
Proof.
  unfold find_matching, first_match. fold (slot_matches d s).
  induction results as [|x l IH]; simpl; [discriminate|].
  destruct (slot_matches d s x) eqn:Ex.
  - intros [= <-]. exists [], l. repeat split; [exact Ex | intros y []].
  - intros H. destruct (IH H) as (before & after & -> & Ha & Hb).
    exists (x :: before), after. repeat split; [exact Ha|].
    intros y [<-|Hy]; [exact Ex | now apply Hb].
Qed.

Lemma find_matching_none (results : list SlotInfo) (d s : json) :
  find_matching results d s = None -> forall x, In x results -> slot_matches d s x = false.
Proof.
  unfold find_matching. fold (slot_matches d s). intros H x Hx.
  apply (find_none _ _ H x Hx).
Qed.

Lemma handle_slot_specific (ex kv : list (string * json)) (d s : json) (c : Cfg) :
  type_set_or_none (cur c) ->
  dict_get ex "specific_slot" = Some (JObj kv) ->
  dict_get kv "date" = Some d ->
  dict_get kv "start_time" = Some s ->
  dict_get kv "end_time" = None ->
  handle_slot SCHEDULE_DATA (JObj ex) c =
  ({| cur := set_phase COLLECTING_INFO
               (set_selected_slot
                  (resolved_slot SCHEDULE_DATA (appointment_type (booking_details (cur c))) kv d s)
                  (cur c));
      ledger := ledger c |}, Ok tt).
Proof.
  intros Hty Hspec Hd Hs He. unfold handle_slot.
  assert (Hg : py_get (JObj ex) "specific_slot" = Ok (JObj kv)).
  { unfold py_get, py_get_default. now rewrite Hspec. }
  assert (Htr : truthy (JObj kv) = true) by (destruct kv; [discriminate Hd | reflexivity]).
  assert (Hres : resolve_specific_slot SCHEDULE_DATA (cur c) (JObj kv)
                 = Ok (resolved_slot SCHEDULE_DATA (appointment_type (booking_details (cur c))) kv d s)).
  { unfold resolve_specific_slot, resolved_slot, mbind, result_bind.
    simpl py_in. rewrite He.
    rewrite bool_decide_eq_false_2 by (intros [x Hx]; discriminate Hx).
    simpl negb. rewrite andb_true_l.
    destruct Hty as [Hnone | Htruthy].
    - rewrite Hnone. simpl truthy. cbv iota.
      rewrite get_available_slots_no_type. reflexivity.
    - rewrite Htruthy. unfold py_get, py_get_default. rewrite Hd, Hs. reflexivity. }
  rewrite Hg, bind_lift_ok, Htr, bind_get_state, Hres, bind_lift_ok. reflexivity.
Qed.

(** C4. When the intent analysis extracts a [specific_slot] with a date and a
    start time but no [end_time], the chat call queries the Slot Finder for
    that date (no time-of-day filter) and stores the first result whose date
    and start time equal the extracted ones, which brings its [end_time] and
    [duration]; when no result matches, the slot is stored as extracted,
    without an [end_time]. *)
Theorem chat_backfills_specific_slot (request : ChatRequest) (inp : Inputs)
    (w w' : World) (r : result json) (ex kv : list (string * json)) (d s : json) :
  (forall st, sessions w !! request_session_id request = Some st -> type_set_or_none st) ->
  py_get_default (intent_analysis inp) "extracted" (JObj []) = Ok (JObj ex) ->
  dict_get ex "specific_slot" = Some (JObj kv) ->
  dict_get kv "date" = Some d ->
  dict_get kv "start_time" = Some s ->
  dict_get kv "end_time" = None ->
  chat SCHEDULE_DATA py_str request inp w = (w', r) ->
  exists st',
    sessions w' !! request_session_id request = Some st'
    /\ let stored := selected_slot (booking_details st') in
       let results := get_available_slots SCHEDULE_DATA
                        (appointment_type (booking_details st')) d JNull in
       match find_matching results d s with
       | Some a =>
           stored = slot_dict a
           /\ first_match d s results a
           /\ py_get stored "end_time" = Ok (slot_end_time a)
           /\ py_get stored "duration" = Ok (slot_duration a)
       | None =>
           stored = JObj kv
           /\ (forall x, In x results -> slot_matches d s x = false)
           /\ py_in "end_time" stored = Ok false
       end.
Proof.
  intros Hwf Hex Hspec Hd Hs He. unfold chat.
  destruct (chat_session _ _ _ _ _) as [c' r'] eqn:Hc. intros [= <- <-]. simpl sessions.
  exists (cur c'). split; [apply lookup_insert_eq|].
  pose proof (chat_session_steps _ _ _ _ _ _ Hex Hc) as Hsteps. simpl in Hsteps.
  set (pre := default (ConversationState_new (request_session_id request))
                (sessions w !! request_session_id request)) in *.
  set (merged := merge_all ex (before_merge request inp pre)) in *.
  assert (Hpre : type_set_or_none pre).
  { unfold pre. destruct (sessions w !! request_session_id request) as [st|] eqn:E.
    - now apply Hwf.
    - left. reflexivity. }
  assert (Hm : type_set_or_none merged).
  { now apply merge_all_type_set_or_none, before_merge_type_set_or_none. }
  rewrite (handle_slot_specific ex kv d s {| cur := merged; ledger := bookings w |}
             Hm Hspec Hd Hs He) in Hsteps.
  destruct Hsteps as [(e & Hh & _) | (cs & Hh & Hr)]; [discriminate Hh|].
  injection Hh as <-.
  apply respond_same_patient_and_booking in Hr as [_ Hb]. simpl in Hb.
  rewrite Hb. simpl. unfold resolved_slot.
  destruct (find_matching _ d s) as [a|] eqn:Ef.
  - split; [reflexivity|]. split; [now apply find_matching_first|].
    split; reflexivity.
  - split; [reflexivity|]. split; [now apply find_matching_none|].
    simpl. rewrite He.
    now rewrite bool_decide_eq_false_2 by (intros [x Hx]; discriminate Hx).
Qed.

Lemma select_by_number_unusable (v : json) (st : ConversationState) :
  unusable_selection SCHEDULE_DATA v st -> select_by_number SCHEDULE_DATA v st = Ok st.
Proof.
  unfold select_by_number. fold (selectable_slots SCHEDULE_DATA st).
  intros [(txt & -> & Hnone) | (n & Hn & Hout)].
  - simpl. now rewrite Hnone.
  - rewrite Hn.
    destruct ((0 <=? n - 1) && (n - 1 <? Z.of_nat (length (selectable_slots SCHEDULE_DATA st)))) eqn:E;
      [|reflexivity].
    apply andb_true_iff in E as [E1 E2].
    apply Z.leb_le in E1. apply Z.ltb_lt in E2. lia.
Qed.

Lemma handle_slot_ignores (ex : list (string * json)) (c : Cfg) :
  truthy (extracted_get ex "specific_slot") = false ->
  unusable_selection SCHEDULE_DATA (extracted_get ex "slot_selection") (cur c) ->
  handle_slot SCHEDULE_DATA (JObj ex) c = (c, Ok tt).
Proof.
  intros Hspec Hbad. unfold handle_slot.
  change (py_get (JObj ex) "specific_slot") with (Ok (extracted_get ex "specific_slot")).
  rewrite bind_lift_ok, Hspec.
  change (py_get (JObj ex) "slot_selection") with (Ok (extracted_get ex "slot_selection")).
  rewrite bind_lift_ok, bind_get_state.
  destruct (_ && _); [|reflexivity].
  rewrite (select_by_number_unusable _ _ Hbad), bind_lift_ok.
  unfold update. now destruct c.
Qed.

(** X19. A selection [int()] makes nothing of is passed over.  When the
    intent analysis extracts no [specific_slot] and its [slot_selection] is
    a string for which [int()] raises ValueError, or a
    number whose 1-based index falls outside the freshly recomputed list of
    available slots, the slot step leaves the session as the merge of the
    other extracted fields left it, selected slot and phase included, and
    raises nothing: the call goes on with the response step on that
    session. *)
Theorem chat_ignores_unusable_selection (request : ChatRequest) (inp : Inputs)
    (ex : list (string * json)) (c : Cfg) :
  py_get_default (intent_analysis inp) "extracted" (JObj []) = Ok (JObj ex) ->
  truthy (extracted_get ex "specific_slot") = false ->
  let cm := {| cur := merge_all ex (before_merge request inp (cur c));
               ledger := ledger c |} in
  unusable_selection SCHEDULE_DATA (extracted_get ex "slot_selection") (cur cm) ->
  handle_slot SCHEDULE_DATA (JObj ex) cm = (cm, Ok tt)
  /\ selected_slot (booking_details (cur cm))
     = selected_slot (booking_details (before_merge request inp (cur c)))
  /\ chat_session SCHEDULE_DATA py_str request inp c
     = respond SCHEDULE_DATA py_str (intent_analysis inp) inp cm.
Proof.
  intros Hex Hspec cm Hbad.
  assert (Hh : handle_slot SCHEDULE_DATA (JObj ex) cm = (cm, Ok tt)).
  { now apply handle_slot_ignores. }
  split; [exact Hh|]. split.
  - apply merge_all_selected_slot.
  - unfold chat_session. unfold mbind at 1 2, M_bind at 1 2.
    rewrite check_restart_spec, (absorb_spec _ _ _ _ Hex).
    change (handle_slot SCHEDULE_DATA (JObj ex) _)
      with (handle_slot SCHEDULE_DATA (JObj ex) cm).
    now rewrite Hh.
Qed.

(** The type invariant holds in every world the endpoints produce. *)
Lemma chat_session_type_set_or_none (request : ChatRequest) (inp : Inputs)
    (c c' : Cfg) (r : result json) :
  chat_session SCHEDULE_DATA py_str request inp c = (c', r) ->
  type_set_or_none (cur c) -> type_set_or_none (cur c').
Proof.
  set (R := fun c c' : Cfg => type_set_or_none (cur c) -> type_set_or_none (cur c')).
  assert (HR : PreOrder R).
  { split; unfold R; [intros x; auto | intros x y z; auto]. }
  intros H. refine ((_ : frames R _) _ _ _ H).
  unfold chat_session.
  apply frames_bind.
  { intros x x' rx. rewrite check_restart_spec. intros [= <- _]. unfold R. simpl.
    destruct (restart_requested _ _); [intros _; now left | auto]. }
  intros _. apply frames_bind.
  - unfold absorb, append_message, merge_extracted. frames_steps.
    all: try (unfold R, type_set_or_none, merge_reason, merge_appointment_type,
                merge_name, merge_phone, merge_email, merge_date, merge_time_preference;
              simpl; split_if; simpl; auto; fail).
    eapply frames_weaken; [|apply handle_slot_same_but_slot].
    intros x x' (_ & _ & _ & _ & _ & _ & Hty & _). unfold R, type_set_or_none.
    now rewrite Hty.
  - intros _. eapply frames_weaken; [|apply respond_same_patient_and_booking].
    intros x x' [_ Hb]. unfold R, type_set_or_none. now rewrite Hb.
Qed.

Lemma chat_type_set_or_none (request : ChatRequest) (inp : Inputs) (w : World) :
  (forall sid st, sessions w !! sid = Some st -> type_set_or_none st) ->
  forall sid st,
    sessions (fst (chat SCHEDULE_DATA py_str request inp w)) !! sid = Some st ->
    type_set_or_none st.
Proof.
  intros Hw sid st. unfold chat.
  destruct (chat_session _ _ _ _ _) as [c' r] eqn:Hc. simpl.
  destruct (decide (request_session_id request = sid)) as [<-|Hne].
  - rewrite lookup_insert_eq. intros [= <-].
    apply (chat_session_type_set_or_none _ _ _ _ _ Hc). simpl.
    destruct (sessions w !! request_session_id request) as [st0|] eqn:E; simpl.
    + now apply (Hw _ _ E).
    + now left.
  - rewrite lookup_insert_ne by exact Hne. apply Hw.
Qed.

End ChatProperties.

Section FinalizeSample.

#[local] Existing Instance ascii_text.

Lemma chat_books_only_when_ready_witness :
  exists st',
    sessions (fst (chat sample_schedule sample_str (request_of "s1" "book it")
                     complete_inputs empty_world)) !! "s1" = Some st'
    /\ ready_for_booking carries_end_time st'.
Proof.
  refine (chat_books_only_when_ready sample_schedule sample_str
            (request_of "s1" "book it") complete_inputs empty_world _ _ _ _).
  - apply surjective_pairing.
  - intros Heq.
    apply (f_equal (fun m : gmap string json => m !! "APPT-20250102-3F2A9C1E")) in Heq.
    vm_compute in Heq. discriminate Heq.
Defined.

(** C1 as the claim words it fails: the second call below appends a booking
    although the end time of the selected slot is the empty string, before
    the call and after it. *)
Lemma chat_books_with_empty_end_time :
  let w := world_after_intake in
  let w' := fst (chat sample_schedule sample_str (request_of "s1" "yes, confirm")
                   confirm_inputs w) in
  (exists st, sessions w !! "s1" = Some st
      /\ ~ ready_for_booking carries_nonempty_end_time st)
  /\ bookings w = ∅
  /\ (exists b, bookings w' !! "APPT-20250102-3F2A9C1E" = Some b
        /\ py_get b "end_time" = Ok (JStr ""))
  /\ bookings w' <> bookings w
  /\ ~ (exists st', sessions w' !! "s1" = Some st'
          /\ ready_for_booking carries_nonempty_end_time st').
Proof.
  assert (Hno : forall st,
    selected_slot (booking_details st) =
      JObj [("day", JStr "Monday"); ("date", JStr "2025-01-06");
            ("start_time", JStr "09:00"); ("end_time", JStr "")] ->
    ~ ready_for_booking carries_nonempty_end_time st).
  { intros st Hs (_ & _ & _ & _ & kv & e & Hkv & He & Ht).
    rewrite Hs in Hkv. injection Hkv as <-. vm_compute in He.
    injection He as <-. discriminate Ht. }
  split; [|split; [|split; [|split]]].
  - eexists. split; [vm_compute; reflexivity|]. apply Hno. reflexivity.
  - vm_compute. reflexivity.
  - eexists. split; vm_compute; reflexivity.
  - intros Heq.
    apply (f_equal (fun m : gmap string json => m !! "APPT-20250102-3F2A9C1E")) in Heq.
    vm_compute in Heq. discriminate Heq.
  - intros (st' & Hst & Hr). vm_compute in Hst. injection Hst as <-.
    revert Hr. apply Hno. reflexivity.
Qed.

End FinalizeSample.

(* ====================================================================== *)
(** ** Reset *)
(* ====================================================================== *)

Lemma reset_state_initial (st : ConversationState) : is_initial (reset_state st).
Proof. repeat split. Qed.

Lemma reset_state_fixed (st : ConversationState) : is_initial st -> reset_state st = st.
Proof.
  destruct st as [sid ph ms p b ctx col]. unfold is_initial. simpl.
  intros (-> & -> & -> & ->). reflexivity.
Qed.

(** C8. Reset is idempotent.  On an existing session that is already in its
    initial state it changes nothing and answers "reset"; on any existing
    session a second reset answers "reset" again and leaves the world the
    first reset produced, in which the session is in its initial state. *)
Theorem reset_session_idempotent (sid : string) (w : World) (st : ConversationState) :
  sessions w !! sid = Some st ->
  (is_initial st -> reset_session sid w = (w, "reset"))
  /\ snd (reset_session sid w) = "reset"
  /\ reset_session sid (fst (reset_session sid w)) = (fst (reset_session sid w), "reset")
  /\ (exists st1, sessions (fst (reset_session sid w)) !! sid = Some st1
        /\ is_initial st1
        /\ session_id st1 = session_id st /\ messages st1 = messages st).
Proof.
  intros Hst.
  assert (Hr : reset_session sid w =
               ({| sessions := <[sid := reset_state st]> (sessions w);
                   bookings := bookings w |}, "reset")).
  { unfold reset_session. now rewrite Hst. }
  rewrite Hr. simpl.
  split; [|split; [reflexivity|split]].
  - intros Hinit. rewrite (reset_state_fixed _ Hinit), (insert_id _ _ _ Hst).
    now destruct w.
  - unfold reset_session. simpl. rewrite lookup_insert_eq.
    rewrite (reset_state_fixed _ (reset_state_initial st)), insert_insert_eq.
    reflexivity.
  - exists (reset_state st). rewrite lookup_insert_eq.
    split; [reflexivity|]. split; [apply reset_state_initial|]. split; reflexivity.
Qed.

(** A reset keeps the type invariant, and the empty world has it. *)
Lemma reset_session_type_set_or_none (sid : string) (w : World) :
  (forall sid' st, sessions w !! sid' = Some st -> type_set_or_none st) ->
  forall sid' st,
    sessions (fst (reset_session sid w)) !! sid' = Some st -> type_set_or_none st.
Proof.
  intros Hw sid' st. unfold reset_session.
  destruct (sessions w !! sid) as [st0|] eqn:E; simpl; [|apply Hw].
  destruct (decide (sid = sid')) as [<-|Hne].
  - rewrite lookup_insert_eq. intros [= <-]. now left.
  - rewrite lookup_insert_ne by exact Hne. apply Hw.
Qed.

Lemma empty_world_type_set_or_none (sid : string) (st : ConversationState) :
  sessions empty_world !! sid = Some st -> type_set_or_none st.
Proof. unfold empty_world. simpl. now rewrite lookup_empty. Qed.

Lemma reset_session_idempotent_witness :
  let w := {| sessions := {["s1" := ConversationState_new "s1"]}; bookings := ∅ |} in
  reset_session "s1" w = (w, "reset").
Proof.
  intros w.
  refine (proj1 (reset_session_idempotent "s1" w (ConversationState_new "s1") _) _).
  - apply lookup_singleton_eq.
  - repeat split.
Defined.

(* ====================================================================== *)
(** ** The properties on sample calls *)
(* ====================================================================== *)

Section SampleCalls.

#[local] Existing Instance ascii_text.


Lemma chat_backfills_specific_slot_witness :
  let w' := fst (chat sample_schedule sample_str (request_of "s1" "Monday at 1 PM")
                   specific_slot_inputs world_with_type) in
  exists st',
    sessions w' !! "s1" = Some st'
    /\ let stored := selected_slot (booking_details st') in
       let results := get_available_slots sample_schedule
                        (appointment_type (booking_details st'))
                        (JStr "2025-01-06") JNull in
       match find_matching results (JStr "2025-01-06") (JStr "13:00") with
       | Some a =>
           stored = slot_dict a
           /\ first_match (JStr "2025-01-06") (JStr "13:00") results a
           /\ py_get stored "end_time" = Ok (slot_end_time a)
           /\ py_get stored "duration" = Ok (slot_duration a)
       | None =>
           stored = JObj [("date", JStr "2025-01-06"); ("start_time", JStr "13:00")]
           /\ (forall x, In x results ->
                 slot_matches (JStr "2025-01-06") (JStr "13:00") x = false)
           /\ py_in "end_time" stored = Ok false
       end.
Proof.
  refine (chat_backfills_specific_slot sample_schedule sample_str
            (request_of "s1" "Monday at 1 PM") specific_slot_inputs world_with_type
            _ _ _ _ (JStr "2025-01-06") (JStr "13:00") _ _ _ _ _ _ _).
  - intros st Hst. vm_compute in Hst. injection Hst as <-. right. reflexivity.
  - reflexivity.
  - reflexivity.
  - reflexivity.
  - reflexivity.
  - reflexivity.
  - apply surjective_pairing.
Defined.

(** The slot the sample call above stores: the 13:00 slot of the schedule,
    end time and duration filled in. *)
Example specific_slot_backfilled :
  exists st',
    sessions (fst (chat sample_schedule sample_str (request_of "s1" "Monday at 1 PM")
                     specific_slot_inputs world_with_type)) !! "s1" = Some st'
    /\ selected_slot (booking_details st') =
       JObj [("day", JStr "Monday"); ("date", JStr "2025-01-06");
             ("start_time", JStr "13:00"); ("end_time", JStr "13:30");
             ("duration", JInt 30)].
Proof. eexists. split; vm_compute; reflexivity. Qed.

Lemma chat_ignores_unusable_selection_witness :
  let request := request_of "s1" "the first one" in
  let c := {| cur := session_with_type; ledger := ∅ |} in
  let cm := {| cur := merge_all [("slot_selection", JStr "first")]
                        (before_merge request unusable_selection_inputs (cur c));
               ledger := ledger c |} in
  handle_slot sample_schedule (JObj [("slot_selection", JStr "first")]) cm = (cm, Ok tt)
  /\ selected_slot (booking_details (cur cm))
     = selected_slot (booking_details (before_merge request unusable_selection_inputs (cur c)))
  /\ chat_session sample_schedule sample_str request unusable_selection_inputs c
     = respond sample_schedule sample_str (intent_analysis unusable_selection_inputs)
         unusable_selection_inputs cm.
Proof.
  intros request c.
  refine (chat_ignores_unusable_selection sample_schedule sample_str request
            unusable_selection_inputs [("slot_selection", JStr "first")] c _ _ _).
  - reflexivity.
  - reflexivity.
  - left. exists "first". split; reflexivity.
Defined.

(** C5.  Not every selection that is no number is ignored.  In the first
    call below the session has an appointment type and no slot, and the
    intent analysis carries the slot selection [[1, 2]], a list: [int()]
    raises TypeError, which [except (ValueError, IndexError)] does not catch,
    and the call ends with that exception once the user's message is recorded;
    no response is made.  A selection that is an object ends the call the same
    way, and the selection [Infinity] ends it with OverflowError. *)
Theorem chat_selection_list_raises :
  let request := request_of "s1" "one or two" in
  let select v := sample_inputs (analysis "select_slot" [("slot_selection", v)]
                                   "collect_name" false) in
  let out := chat sample_schedule sample_str request
               (select (JArr [JInt 1; JInt 2])) world_with_type in
  (exists st, sessions world_with_type !! "s1" = Some st
     /\ truthy (appointment_type (booking_details st)) = true
     /\ selected_slot (booking_details st) = JNull)
  /\ snd out = Raise TypeError
  /\ (exists st', sessions (fst out) !! "s1" = Some st'
        /\ selected_slot (booking_details st') = JNull
        /\ last (messages st') = Some (user_message request (select (JArr [JInt 1; JInt 2]))))
  /\ snd (chat sample_schedule sample_str request
            (select (JObj [("index", JInt 1)])) world_with_type) = Raise TypeError
  /\ snd (chat sample_schedule sample_str request
            (select (JFloat (FInf false))) world_with_type) = Raise OverflowError.
Proof.
  split; [|split; [|split; [|split]]].
  - eexists. split; [vm_compute; reflexivity|]. split; reflexivity.
  - vm_compute. reflexivity.
  - eexists. split; [vm_compute; reflexivity|]. split; reflexivity.
  - vm_compute. reflexivity.
  - vm_compute. reflexivity.
Qed.

(** An index beyond the list is ignored as well. *)
Example select_by_number_out_of_range :
  select_by_number sample_schedule (JInt 9) session_with_type = Ok session_with_type
  /\ select_by_number sample_schedule (JStr " 2 ") session_with_type
     = Ok (set_phase COLLECTING_INFO
             (set_selected_slot
                (JObj [("day", JStr "Monday"); ("date", JStr "2025-01-06");
                       ("start_time", JStr "13:00"); ("end_time", JStr "13:30");
                       ("duration", JInt 30)]) session_with_type)).
Proof. split; vm_compute; reflexivity. Qed.

Lemma contact_fields_set_once_witness :
  exists st',
    sessions (run_chats sample_schedule sample_str
                [(request_of "s1" "it is Bob Ray, 555-0199", other_name_inputs);
                 (request_of "s2" "hello", confirm_inputs)]
                world_after_intake) !! "s1" = Some st'
    /\ (truthy (name (patient_info session_after_intake)) = true ->
          name (patient_info st') = name (patient_info session_after_intake))
    /\ (truthy (email (patient_info session_after_intake)) = true ->
          email (patient_info st') = email (patient_info session_after_intake))
    /\ (truthy (phone (patient_info session_after_intake)) = true ->
          phone (patient_info st') = phone (patient_info session_after_intake)).
Proof.
  refine (contact_fields_set_once sample_schedule sample_str "s1" _ world_after_intake
            session_after_intake _ _).
  - vm_compute. reflexivity.
  - simpl. split; [|split; [|exact I]].
    + intros _ st Hst. vm_compute in Hst. injection Hst as <-. reflexivity.
    + intros Hne. discriminate Hne.
Defined.

(** The stored name stays "Ann Lee" although "Bob Ray" is extracted. *)
Example name_first_value_wins :
  name (patient_info session_after_intake) = JStr "Ann Lee"
  /\ exists st',
       sessions (fst (chat sample_schedule sample_str
                        (request_of "s1" "it is Bob Ray, 555-0199")
                        other_name_inputs world_after_intake)) !! "s1" = Some st'
       /\ name (patient_info st') = JStr "Ann Lee"
       /\ phone (patient_info st') = JStr "555-0100".
Proof.
  split; [reflexivity|]. eexists. split; [vm_compute; reflexivity|]. split; reflexivity.
Qed.

Lemma chat_restart_resets_witness :
  let request := request_of "s1" "I would like to Book another visit" in
  let st := session_after_booking in
  check_restart (message request) {| cur := st; ledger := bookings world_after_booking |}
    = ({| cur := restarted st; ledger := bookings world_after_booking |}, Ok tt)
  /\ session_id (restarted st) = session_id st
  /\ messages (restarted st) = messages st
  /\ phase (restarted st) = GREETING
  /\ patient_info (restarted st) = PatientInfo_new
  /\ booking_details (restarted st) = BookingDetails_new
  /\ collected_info (restarted st) = collected_info_new
  /\ chat sample_schedule sample_str request confirm_inputs world_after_booking
     = chat sample_schedule sample_str request confirm_inputs
         {| sessions := <[request_session_id request := restarted st]>
                          (sessions world_after_booking);
            bookings := bookings world_after_booking |}.
Proof.
  intros request st.
  refine (chat_restart_resets sample_schedule sample_str request confirm_inputs
            world_after_booking st _ _ _).
  - vm_compute. reflexivity.
  - reflexivity.
  - exists "book". split; [simpl; tauto|].
    exists "i would like to ", " another visit". reflexivity.
Defined.

Lemma chat_overwrites_preferences_witness :
  exists st',
    sessions (fst (chat sample_schedule sample_str (request_of "s1" "Tuesday morning")
                     new_date_inputs world_with_type)) !! "s1" = Some st'
    /\ preferred_date (booking_details st') = JStr "2025-01-07".
Proof.
  destruct (chat_overwrites_preferences sample_schedule sample_str
              (request_of "s1" "Tuesday morning") new_date_inputs world_with_type
              _ _ [("date", JStr "2025-01-07"); ("time_preference", JStr "morning")]
              eq_refl (surjective_pairing _))
    as (st' & Hst & _ & Hdate & _).
  exists st'. split; [exact Hst|]. apply Hdate; reflexivity.
Defined.

(** C9 as the claim words it fails: the date extracted below is not null, it
    is the empty string, and the stored date stays. *)
Lemma chat_keeps_date_on_empty_string :
  let ex := [("date", JStr "")] in
  let inp := sample_inputs (analysis "select_time" ex "ask_time_preference" false) in
  let w := world_with_type in
  let w' := fst (chat sample_schedule sample_str (request_of "s1" "some day") inp w) in
  dict_get ex "date" = Some (JStr "")
  /\ JStr "" <> JNull
  /\ (exists st, sessions w !! "s1" = Some st
        /\ preferred_date (booking_details st) = JStr "2025-01-06")
  /\ (exists st', sessions w' !! "s1" = Some st'
        /\ preferred_date (booking_details st') = JStr "2025-01-06"
        /\ preferred_date (booking_details st') <> JStr "").
Proof.
  split; [reflexivity|]. split; [discriminate|]. split.
  - eexists. split; [vm_compute; reflexivity | reflexivity].
  - eexists. split; [vm_compute; reflexivity|]. split; [reflexivity | discriminate].
Qed.

Lemma chat_response_slots_witness :
  let out := chat sample_schedule sample_str (request_of "s1" "book it")
               complete_inputs empty_world in
  shown_slots sample_schedule (JStr "show_slots") session_after_booking <> []
  /\ exists booking slots st' next_action,
       py_get (response_of (snd out)) "booking" = Ok booking
       /\ py_get (response_of (snd out)) "available_slots" = Ok (JArr slots)
       /\ sessions (fst out) !! "s1" = Some st'
       /\ py_get (intent_analysis complete_inputs) "next_action" = Ok next_action
       /\ (booking <> JNull -> slots = [])
       /\ (booking = JNull ->
             slots = map slot_dict (shown_slots sample_schedule next_action st')).
Proof.
  intros out. split; [vm_compute; discriminate|].
  refine (chat_response_slots sample_schedule sample_str (request_of "s1" "book it")
            complete_inputs empty_world (fst out) (response_of (snd out)) _).
  vm_compute. reflexivity.
Defined.

(** In that response the booking is there and the slot list is empty. *)
Example booked_response_has_no_slots :
  let env := response_of (snd (chat sample_schedule sample_str (request_of "s1" "book it")
                                 complete_inputs empty_world)) in
  py_get env "available_slots" = Ok (JArr [])
  /\ exists items, py_get env "booking" = Ok (JObj items)
       /\ dict_get items "confirmation_code" = Some (JStr "A81B44").
Proof. split; [vm_compute; reflexivity|]. eexists. split; vm_compute; reflexivity. Qed.

End SampleCalls.

(* ====================================================================== *)
(** ** More on the Slot Finder *)
(* ====================================================================== *)

Lemma flat_mapM_all_ok {A B} (f : A -> result (list B)) (l : list A) (r : list B) :
  flat_mapM f l = Ok r -> forall a, In a l -> exists ra, f a = Ok ra.
Proof.
  revert r. induction l as [|x l IH]; intros r; simpl; [intros _ a []|].
  unfold mbind, result_bind.
  destruct (f x) as [xs|e] eqn:Ex; [|discriminate].
  destruct (flat_mapM f l) as [ys|e] eqn:El; [|discriminate].
  intros _ a [<-|Ha]; [eauto | eapply IH; eauto].
Qed.


Section SlotFinderEdges.

Context {py : PyText}.

Variable SCHEDULE_DATA : json.

Lemma schedule_entry_known (ty : json) (kv : list (string * json))
    (type_name : string) (entry : json) :
  SCHEDULE_DATA = JObj kv -> ty = JStr type_name -> dict_get kv type_name = Some entry ->
  schedule_entry SCHEDULE_DATA ty = Ok entry.
Proof. intros HS -> Hg. unfold schedule_entry. rewrite HS. simpl. now rewrite Hg. Qed.

(** Where a returned slot comes from. *)
Lemma get_available_slots_origin (ty date tpref : json) (s : SlotInfo) :
  In s (get_available_slots SCHEDULE_DATA ty date tpref) ->
  exists (day_data slot available : json),
    schedule_slot SCHEDULE_DATA ty (slot_day s) day_data slot
    /\ day_visited date day_data
    /\ py_get slot "available" = Ok available /\ truthy available = true
    /\ py_get day_data "date" = Ok (slot_date s)
    /\ py_get slot "start_time" = Ok (slot_start_time s)
    /\ py_get slot "end_time" = Ok (slot_end_time s)
    /\ schedule_duration SCHEDULE_DATA ty = Ok (slot_duration s)
    /\ (truthy date = true -> py_eq (slot_date s) date = true).
Proof.
  unfold get_available_slots, get_available_slots_body.
  unfold mbind, result_bind.
  destruct (schedule_entry SCHEDULE_DATA ty) as [entry|e] eqn:Eentry; [|intros []].
  destruct (py_get_default entry "schedule" (JObj [])) as [type_schedule|e] eqn:Esched;
    [|intros []].
  destruct type_schedule as [| | | | | |days]; try (intros []).
  destruct (flat_mapM _ days) as [all|e] eqn:Edays; [|intros []].
  simpl. intros Hin. apply In_take in Hin.
  destruct (flat_mapM_In _ _ _ _ Edays Hin) as ([day day_data] & ra & Hday_in & Hday & Hra).
  assert (Hknown : exists kv type_name, SCHEDULE_DATA = JObj kv /\ ty = JStr type_name
                                        /\ dict_get kv type_name = Some entry).
  { unfold schedule_entry in Eentry.
    destruct SCHEDULE_DATA as [| | | | | |kv]; try discriminate.
    unfold mbind, result_bind in Eentry.
    destruct (dict_find kv ty) as [[found|]|e] eqn:Ef; try discriminate.
    - injection Eentry as <-. destruct ty; try discriminate.
      simpl in Ef. injection Ef as Ef. eauto.
    - injection Eentry as <-. simpl in Esched. injection Esched as <-.
      destruct Hday_in. }
  destruct Hknown as (kv & type_name & HS & Hty & Hg).
  unfold day_entries in Hday. unfold mbind, result_bind in Hday.
  destruct (if truthy date then _ else _) as [skip|e] eqn:Eskip; [|discriminate].
  destruct skip; [injection Hday as <-; destruct Hra|].
  destruct (py_get_default day_data "slots" (JArr [])) as [slots|e] eqn:Eslots;
    [|discriminate].
  destruct (py_iter slots) as [items|e] eqn:Eitems; [|discriminate].
  destruct (flat_mapM_In _ _ _ _ Hday Hra) as (slot & rs & Hslot_in & Hslot & Hrs).
  unfold slot_entry in Hslot. unfold mbind, result_bind in Hslot.
  destruct (py_get slot "available") as [available|e] eqn:Eav; [|discriminate].
  destruct (truthy available) eqn:Etr; [|injection Hslot as <-; destruct Hrs].
  destruct (py_get day_data "date") as [d|e] eqn:Ed; [|discriminate].
  destruct (py_get slot "start_time") as [st|e] eqn:Est; [|discriminate].
  destruct (py_get slot "end_time") as [et|e] eqn:Eet; [|discriminate].
  destruct (schedule_duration SCHEDULE_DATA ty) as [dur|e] eqn:Edur; [|discriminate].
  destruct (time_preference_keeps tpref slot) as [keep|e] eqn:Ekeep; [|discriminate].
  destruct keep; injection Hslot as <-; [|destruct Hrs].
  destruct Hrs as [<-|[]]. simpl.
  exists day_data, slot, available.
  assert (Hvis : day_visited date day_data).
  { unfold day_visited. destruct (truthy date); [|now left].
    right. exists d. split; [exact Ed|].
    injection Eskip as Eskip. now apply negb_false_iff in Eskip. }
  split.
  { split; [exists kv, type_name, entry, days; auto | exists slots, items; auto]. }
  split; [exact Hvis|]. repeat split; auto.
  intros Hdate. destruct Hvis as [Hf | (d' & Hd' & He)]; [congruence|].
  rewrite Ed in Hd'. injection Hd' as <-. exact He.
Qed.

(** X1. At most ten slots come back, and each of them is a slot the table
    lists for the appointment type, marked available, on a day that passes
    the date filter, with the date of that day, the start and end time of
    the slot and the [duration_minutes] of the type. *)
Theorem get_available_slots_sound (ty date tpref : json) (s : SlotInfo) :
  In s (get_available_slots SCHEDULE_DATA ty date tpref) ->
  (length (get_available_slots SCHEDULE_DATA ty date tpref) <= 10)%nat
  /\ exists (day_data slot available : json),
       schedule_slot SCHEDULE_DATA ty (slot_day s) day_data slot
       /\ py_get slot "available" = Ok available /\ truthy available = true
       /\ py_get day_data "date" = Ok (slot_date s)
       /\ py_get slot "start_time" = Ok (slot_start_time s)
       /\ py_get slot "end_time" = Ok (slot_end_time s)
       /\ schedule_duration SCHEDULE_DATA ty = Ok (slot_duration s)
       /\ (truthy date = true -> py_eq (slot_date s) date = true).
Proof.
  intros Hin. split.
  - unfold get_available_slots, get_available_slots_body, mbind, result_bind.
    destruct (schedule_entry _ _); [|simpl; lia].
    destruct (py_get_default _ _ _) as [[| | | | | |days]|]; try (simpl; lia).
    destruct (flat_mapM _ days); simpl; [|lia].
    rewrite length_take. lia.
  - destruct (get_available_slots_origin _ _ _ _ Hin)
      as (day_data & slot & available & H1 & _ & H2).
    exists day_data, slot, available. auto.
Qed.

(** X2. The result is empty when the table has no day to offer: the
    appointment type is not in the table, or a date is asked for that no day
    of the type carries. *)
Theorem get_available_slots_nothing_offered (ty date tpref : json) :
  (forall day day_data,
     schedule_day SCHEDULE_DATA ty day day_data -> ~ day_visited date day_data) ->
  get_available_slots SCHEDULE_DATA ty date tpref = [].
Proof.
  intros Hnone.
  destruct (get_available_slots SCHEDULE_DATA ty date tpref) as [|s l] eqn:E;
    [reflexivity|].
  assert (Hin : In s (get_available_slots SCHEDULE_DATA ty date tpref)).
  { rewrite E. now left. }
  destruct (get_available_slots_origin _ _ _ _ Hin)
    as (day_data & slot & available & [Hday _] & Hvis & _).
  destruct (Hnone _ _ Hday Hvis).
Qed.

(** One slot whose entry raises empties the whole result. *)
Lemma get_available_slots_raise (ty date tpref : json) (day : string)
    (day_data slot : json) (e : exn) :
  schedule_slot SCHEDULE_DATA ty day day_data slot ->
  day_visited date day_data ->
  slot_entry SCHEDULE_DATA ty tpref day day_data slot = Raise e ->
  get_available_slots SCHEDULE_DATA ty date tpref = [].
Proof.
  intros [(kv & type_name & entry & days & HS & Hty & Hg & Hsched & Hday)
          (slots & items & Hslots & Hitems & Hslot)] Hvis Hraise.
  unfold get_available_slots, get_available_slots_body.
  rewrite (schedule_entry_known ty kv type_name entry HS Hty Hg).
  unfold mbind at 1, result_bind at 1. rewrite Hsched.
  unfold mbind at 1, result_bind at 1.
  destruct (flat_mapM _ days) as [all|e'] eqn:Edays; [|reflexivity].
  exfalso.
  destruct (flat_mapM_all_ok _ _ _ Edays _ Hday) as [ra Hra].
  unfold day_entries in Hra. unfold mbind, result_bind in Hra.
  assert (Hskip : (if truthy date
                   then match py_get day_data "date" with
                        | Ok d => Ok (negb (py_eq d date))
                        | Raise e0 => Raise e0
                        end
                   else Ok false) = Ok false).
  { destruct Hvis as [-> | (d & -> & ->)]; [reflexivity|].
    destruct (truthy date); reflexivity. }
  rewrite Hskip, Hslots, Hitems in Hra.
  destruct (flat_mapM_all_ok _ _ _ Hra _ Hslot) as [rs Hrs].
  congruence.
Qed.

(** X3. Errors are swallowed whole: when a time-of-day filter is given and
    one available slot of a visited day has a start time whose hour cannot
    be read, the result is empty, whatever the other slots are. *)
Theorem get_available_slots_poisoned (ty date tpref : json) (day : string)
    (day_data slot available : json) (e : exn) :
  schedule_slot SCHEDULE_DATA ty day day_data slot ->
  day_visited date day_data ->
  py_get slot "available" = Ok available ->
  truthy available = true ->
  truthy tpref = true ->
  start_hour slot = Raise e ->
  get_available_slots SCHEDULE_DATA ty date tpref = [].
Proof.
  intros Hslot Hvis Hav Htr Htp Hhour.
  assert (Hraise : exists e', slot_entry SCHEDULE_DATA ty tpref day day_data slot = Raise e').
  { unfold slot_entry, mbind, result_bind. rewrite Hav, Htr.
    destruct (py_get day_data "date"); [|eauto].
    destruct (py_get slot "start_time"); [|eauto].
    destruct (py_get slot "end_time"); [|eauto].
    destruct (schedule_duration SCHEDULE_DATA ty); [|eauto].
    unfold time_preference_keeps, mbind, result_bind. rewrite Htp, Hhour. eauto. }
  destruct Hraise as [e' Hraise].
  eapply get_available_slots_raise; eauto.
Qed.



End SlotFinderEdges.

(* ====================================================================== *)
(** ** More on the chat endpoint *)
(* ====================================================================== *)

Ltac unfold_merges :=
  unfold merge_all, merge_time_preference, merge_date, merge_email, merge_phone,
    merge_name, merge_appointment_type, merge_reason.

Section ChatEdges.

Context {py : PyText}.

Variable SCHEDULE_DATA : json.
Variable py_str : json -> string.

(** [finalize] step by step. *)
Lemma finalize_unfold (inp : Inputs) (c : Cfg) :
  finalize py_str inp c =
  match booking_data_of (cur c) with
  | Raise e => (c, Raise e)
  | Ok bd =>
      let booked := book_appointment inp bd (ledger c) in
      let c1 := {| cur := set_phase COMPLETE (cur c); ledger := fst booked |} in
      let slot := selected_slot (booking_details (cur c)) in
      match py_item slot "day" with
      | Raise e => (c1, Raise e)
      | Ok day =>
          match py_item slot "date" with
          | Raise e => (c1, Raise e)
          | Ok d =>
              match py_item slot "start_time" with
              | Raise e => (c1, Raise e)
              | Ok s =>
                  match py_item (snd booked) "confirmation_code" with
                  | Raise e => (c1, Raise e)
                  | Ok code =>
                      (c1, Ok (snd booked,
                               confirmation_text py_str day d s
                                 (email (patient_info (cur c))) code))
                  end
              end
          end
      end
  end.
Proof.
  unfold finalize, mbind, M_bind, get_state, lift, update, ret, call_book_appointment.
  destruct (booking_data_of (cur c)) as [bd|e]; [|reflexivity].
  destruct (book_appointment inp bd (ledger c)) as [l b] eqn:Eb. simpl.
  destruct (py_item _ "day"); [|reflexivity].
  destruct (py_item _ "date"); [|reflexivity].
  destruct (py_item _ "start_time"); [|reflexivity].
  destruct (py_item b "confirmation_code"); reflexivity.
Qed.

(** [respond] step by step. *)
Lemma respond_unfold (ia : json) (inp : Inputs) (c : Cfg) :
  respond SCHEDULE_DATA py_str ia inp c =
  match py_get ia "next_action" with
  | Raise e => (c, Raise e)
  | Ok next_action =>
      match can_book ia (cur c) with
      | Raise e => (c, Raise e)
      | Ok ready =>
          match (if ready then finalize py_str inp c
                 else (c, Ok (JNull, generated_response inp))) with
          | (c1, Raise e) => (c1, Raise e)
          | (c1, Ok (booking_result, response_text)) =>
              let st := set_messages
                          (messages (cur c1) ++ [assistant_message inp response_text])%list
                          (cur c1) in
              match py_get ia "intent" with
              | Raise e => ({| cur := st; ledger := ledger c1 |}, Raise e)
              | Ok intent =>
                  ({| cur := st; ledger := ledger c1 |},
                   Ok (envelope st response_text intent
                         (shown_slots SCHEDULE_DATA next_action (cur c))
                         ready booking_result next_action))
              end
          end
      end
  end.
Proof.
  unfold respond, mbind, M_bind, get_state, lift, update, ret, append_message.
  destruct (py_get ia "next_action") as [na|e]; [|reflexivity].
  destruct (can_book ia (cur c)) as [[]|e]; [| |reflexivity].
  - destruct (finalize py_str inp c) as [c1 [[b text]|e]]; [|reflexivity].
    simpl. destruct (py_get ia "intent"); reflexivity.
  - simpl. destruct (py_get ia "intent"); reflexivity.
Qed.

(** [chat_session] up to the slot step. *)
Lemma chat_session_unfold (request : ChatRequest) (inp : Inputs) (c : Cfg) :
  chat_session SCHEDULE_DATA py_str request inp c =
  let c0 := {| cur := before_merge request inp (cur c); ledger := ledger c |} in
  match py_get_default (intent_analysis inp) "extracted" (JObj []) with
  | Raise e => (c0, Raise e)
  | Ok (JObj ex) =>
      match handle_slot SCHEDULE_DATA (JObj ex)
              {| cur := merge_all ex (cur c0); ledger := ledger c |} with
      | (cs, Ok _) => respond SCHEDULE_DATA py_str (intent_analysis inp) inp cs
      | (cs, Raise e) => (cs, Raise e)
      end
  | Ok _ => (c0, Raise AttributeError)
  end.
Proof.
  unfold chat_session. unfold mbind at 1 2, M_bind at 1 2.
  rewrite check_restart_spec.
  destruct (py_get_default (intent_analysis inp) "extracted" (JObj [])) as [extracted|e] eqn:Hex.
  - destruct extracted as [| | | | | |ex];
      unfold absorb, append_message, update, lift;
      unfold mbind at 1 2, M_bind at 1 2; rewrite Hex; reflexivity.
  - unfold absorb, append_message, update, lift.
    unfold mbind at 1 2, M_bind at 1 2. rewrite Hex. reflexivity.
Qed.

Lemma merge_all_messages (ex : list (string * json)) (st : ConversationState) :
  messages (merge_all ex st) = messages st /\ session_id (merge_all ex st) = session_id st.
Proof. unfold_merges. split_if; split; reflexivity. Qed.

Lemma merge_all_nothing (st : ConversationState) : merge_all [] st = st.
Proof. reflexivity. Qed.

Lemma handle_slot_nothing (ex : list (string * json)) (c : Cfg) :
  truthy (extracted_get ex "specific_slot") = false ->
  truthy (extracted_get ex "slot_selection") = false ->
  handle_slot SCHEDULE_DATA (JObj ex) c = (c, Ok tt).
Proof.
  intros Hspec Hsel. unfold handle_slot.
  change (py_get (JObj ex) "specific_slot") with (Ok (extracted_get ex "specific_slot")).
  rewrite bind_lift_ok, Hspec.
  change (py_get (JObj ex) "slot_selection") with (Ok (extracted_get ex "slot_selection")).
  rewrite bind_lift_ok, bind_get_state, Hsel. reflexivity.
Qed.

Lemma py_get_dict (o : json) (k : string) (v : json) :
  py_get o k = Ok v -> forall k', py_get o k' = Ok (default JNull (match o with
                                                               | JObj kv => dict_get kv k'
                                                               | _ => None
                                                               end)).
Proof. destruct o; try discriminate. reflexivity. Qed.

(** What the response step does to the history and the ledger. *)
Lemma respond_history (ia : json) (inp : Inputs) (c c' : Cfg) (r : result json) :
  respond SCHEDULE_DATA py_str ia inp c = (c', r) ->
  session_id (cur c') = session_id (cur c)
  /\ (ledger c' = ledger c
      \/ exists b, ledger c' = <[booking_id_of inp := b]> (ledger c))
  /\ match r with
     | Ok env =>
         exists text, py_get env "response" = Ok (JStr text)
                      /\ messages (cur c') = (messages (cur c) ++ [assistant_message inp text])%list
     | Raise _ => messages (cur c') = messages (cur c)
     end.
Proof.
  rewrite respond_unfold.
  destruct (py_get ia "next_action") as [na|e] eqn:Hna; [|intros [= <- <-]; auto].
  destruct (can_book ia (cur c)) as [ready|e]; [|intros [= <- <-]; auto].
  assert (Hint : exists intent, py_get ia "intent" = Ok intent).
  { eexists. apply (py_get_dict _ _ _ Hna). }
  destruct Hint as [intent Hint]. rewrite Hint.
  destruct ready.
  - rewrite finalize_unfold.
    destruct (booking_data_of (cur c)) as [bd|e]; [|intros [= <- <-]; auto].
    simpl.
    assert (Hl : exists b, <[booking_id_of inp := JObj
                   ([("booking_id", JStr (booking_id_of inp));
                     ("confirmation_code", JStr (upper (str_take 6 (uuid_confirmation inp))));
                     ("status", JStr "confirmed");
                     ("created_at", JStr (now_created inp))] ++ bd)]> (ledger c)
                 = <[booking_id_of inp := b]> (ledger c)) by eauto.
    destruct (py_item _ "day"); [|intros [= <- <-]; auto].
    destruct (py_item _ "date"); [|intros [= <- <-]; auto].
    destruct (py_item _ "start_time"); [|intros [= <- <-]; auto].
    intros [= <- <-]. simpl. split; [reflexivity|]. split; [right; exact Hl|]. eauto.
  - intros [= <- <-]. simpl. split; [reflexivity|]. split; [now left|]. eauto.
Qed.

Lemma chat_session_history (request : ChatRequest) (inp : Inputs) (c c' : Cfg)
    (r : result json) :
  chat_session SCHEDULE_DATA py_str request inp c = (c', r) ->
  session_id (cur c') = session_id (cur c)
  /\ (ledger c' = ledger c
      \/ exists b, ledger c' = <[booking_id_of inp := b]> (ledger c))
  /\ match r with
     | Ok env =>
         exists text, py_get env "response" = Ok (JStr text)
                      /\ messages (cur c')
                         = (messages (cur c) ++ [user_message request inp;
                                                 assistant_message inp text])%list
     | Raise _ => messages (cur c') = (messages (cur c) ++ [user_message request inp])%list
     end.
Proof.
  rewrite chat_session_unfold. cbv zeta.
  assert (Hb : session_id (before_merge request inp (cur c)) = session_id (cur c)
               /\ messages (before_merge request inp (cur c))
                  = (messages (cur c) ++ [user_message request inp])%list).
  { unfold before_merge. destruct (restart_requested _ _); split; reflexivity. }
  destruct Hb as [Hsid Hms].
  destruct (py_get_default _ _ _) as [extracted|e].
  - destruct extracted as [| | | | | |ex]; try (intros [= <- <-]; simpl; auto).
    destruct (handle_slot _ _ _) as [cs ro] eqn:Hh.
    apply handle_slot_same_but_slot in Hh.
    destruct Hh as (Hl & Hs & Hm & _). simpl in Hl, Hs, Hm.
    destruct (merge_all_messages ex (before_merge request inp (cur c))) as [Hmm Hms'].
    rewrite Hmm, Hms in Hm. rewrite Hms', Hsid in Hs.
    destruct ro as [[]|e].
    + intros Hr. apply respond_history in Hr as (Hs' & Hl' & Hm').
      rewrite Hs, Hl in *. split; [congruence|]. split; [exact Hl'|].
      destruct r as [env|e]; [|congruence].
      destruct Hm' as (text & Hresp & Hm'). exists text. split; [exact Hresp|].
      rewrite Hm', Hm, <- app_assoc. reflexivity.
    + intros [= <- <-]. auto.
  - intros [= <- <-]. simpl. auto.
Qed.

(** X5. The message history is append-only.  A chat call, restart or not,
    keeps the stored messages and the session identifier and appends the user
    message; when it returns a response it appends one assistant message, the
    text of the response, and when it ends in an exception it appends nothing
    more. *)
Theorem chat_appends_messages (request : ChatRequest) (inp : Inputs)
    (w w' : World) (r : result json) :
  chat SCHEDULE_DATA py_str request inp w = (w', r) ->
  let sid := request_session_id request in
  let old := default (ConversationState_new sid) (sessions w !! sid) in
  exists st',
    sessions w' !! sid = Some st'
    /\ session_id st' = session_id old
    /\ match r with
       | Ok env =>
           exists text,
             py_get env "response" = Ok (JStr text)
             /\ messages st' = (messages old ++ [user_message request inp;
                                                 assistant_message inp text])%list
       | Raise _ =>
           messages st' = (messages old ++ [user_message request inp])%list
       end.
Proof.
  unfold chat. destruct (chat_session _ _ _ _ _) as [c' r'] eqn:Hc.
  intros [= <- <-]. simpl. exists (cur c'). split; [apply lookup_insert_eq|].
  apply chat_session_history in Hc as (Hs & _ & Hm). auto.
Qed.

(** X6. A chat call touches one session and at most one booking: every
    other session is as before, and the ledger is unchanged or has one
    record stored under the booking identifier of the call, all other
    identifiers keeping their record. *)
Theorem chat_touches_one_session (request : ChatRequest) (inp : Inputs)
    (w w' : World) (r : result json) :
  chat SCHEDULE_DATA py_str request inp w = (w', r) ->
  (forall sid, sid <> request_session_id request ->
     sessions w' !! sid = sessions w !! sid)
  /\ (bookings w' = bookings w
      \/ exists b, bookings w' = <[booking_id_of inp := b]> (bookings w))
  /\ (forall booking_id, booking_id <> booking_id_of inp ->
        get_booking booking_id w' = get_booking booking_id w).
Proof.
  unfold chat. destruct (chat_session _ _ _ _ _) as [c' r'] eqn:Hc.
  intros [= <- <-]. simpl.
  apply chat_session_history in Hc as (_ & Hl & _). simpl in Hl.
  split; [intros sid Hne; now rewrite lookup_insert_ne|].
  split; [exact Hl|].
  intros id Hne. unfold get_booking. simpl.
  destruct Hl as [-> | [b ->]]; [reflexivity|].
  now rewrite lookup_insert_ne.
Qed.

(** X7. An intent analysis whose [extracted] is not a dict (null, say), or
    that is not a dict itself, makes the call fail with AttributeError after
    the user message was stored: the session is the one the merge would have
    started from and the ledger is as before. *)
Theorem chat_extracted_not_a_dict (request : ChatRequest) (inp : Inputs) (w : World) :
  (forall ex, py_get_default (intent_analysis inp) "extracted" (JObj []) <> Ok (JObj ex)) ->
  let sid := request_session_id request in
  let old := default (ConversationState_new sid) (sessions w !! sid) in
  chat SCHEDULE_DATA py_str request inp w
  = ({| sessions := <[sid := before_merge request inp old]> (sessions w);
        bookings := bookings w |}, Raise AttributeError).
Proof.
  intros Hno. unfold chat. rewrite chat_session_unfold. cbv zeta.
  destruct (py_get_default _ _ _) as [extracted|e] eqn:Hex.
  - destruct extracted; try reflexivity. destruct (Hno kv eq_refl).
  - unfold py_get_default in Hex. destruct (intent_analysis inp); try discriminate;
      injection Hex as <-; reflexivity.
Qed.






Lemma respond_booking (ia : json) (inp : Inputs) (c c' : Cfg) (env b : json) :
  respond SCHEDULE_DATA py_str ia inp c = (c', Ok env) ->
  py_get env "booking" = Ok b -> b <> JNull ->
  py_get b "booking_id" = Ok (JStr (booking_id_of inp))
  /\ ledger c' !! booking_id_of inp = Some b
  /\ phase (cur c') = COMPLETE.
Proof.
  rewrite respond_unfold.
  destruct (py_get ia "next_action") as [na|]; [|discriminate].
  destruct (can_book ia (cur c)) as [[]|]; [| |discriminate].
  - rewrite finalize_unfold.
    destruct (booking_data_of (cur c)) as [bd|]; [|discriminate]. cbv zeta.
    destruct (py_item _ "day"); [|discriminate].
    destruct (py_item _ "date"); [|discriminate].
    destruct (py_item _ "start_time"); [|discriminate].
    unfold book_appointment. cbv zeta. unfold fst, snd.
    change (py_item (JObj _) "confirmation_code") with
      (@Ok json (JStr (upper (str_take 6 (uuid_confirmation inp))))).
    cbv iota. destruct (py_get ia "intent"); [|discriminate].
    intros [= <- <-]. intros [= <-] _. simpl.
    split; [reflexivity|]. split; [apply lookup_insert_eq | reflexivity].
  - destruct (py_get ia "intent"); [|discriminate].
    intros [= <- <-]. intros [= <-] Hne. now destruct Hne.
Qed.

(** X10. A booking a response carries can be fetched at once: its
    [booking_id] is the identifier of the call, [get_booking] gives the same
    record for it in the world the call leaves, and the session is in the
    complete phase. *)
Theorem chat_booking_can_be_fetched (request : ChatRequest) (inp : Inputs)
    (w w' : World) (env b : json) :
  chat SCHEDULE_DATA py_str request inp w = (w', Ok env) ->
  py_get env "booking" = Ok b ->
  b <> JNull ->
  py_get b "booking_id" = Ok (JStr (booking_id_of inp))
  /\ get_booking (booking_id_of inp) w' = Http_ok b
  /\ exists st', sessions w' !! request_session_id request = Some st'
                 /\ phase st' = COMPLETE.
Proof.
  unfold chat. destruct (chat_session _ _ _ _ _) as [c' r'] eqn:Hc.
  intros [= <- ->] Hb Hne.
  rewrite chat_session_unfold in Hc. cbv zeta in Hc.
  destruct (py_get_default _ _ _) as [[| | | | | |ex]|]; try discriminate.
  destruct (handle_slot _ _ _) as [cs [[]|]]; [|discriminate].
  destruct (respond_booking _ _ _ _ _ _ Hc Hb Hne) as (Hid & Hl & Hph).
  split; [exact Hid|]. split.
  - unfold get_booking. simpl. now rewrite Hl.
  - exists (cur c'). simpl. split; [apply lookup_insert_eq | exact Hph].
Qed.

(** X11. When the intent analysis fails and [analyze_intent] falls back, the
    call still answers: it stores the user message and the generated reply,
    books nothing, merges nothing, and its response has no booking, no slots,
    the action "ask_reason" and the generated text. *)
Theorem chat_on_intent_fallback (request : ChatRequest) (inp : Inputs) (w : World) :
  intent_analysis inp = analyze_intent None ->
  let sid := request_session_id request in
  let old := default (ConversationState_new sid) (sessions w !! sid) in
  let st := before_merge request inp old in
  exists st' env,
    chat SCHEDULE_DATA py_str request inp w
    = ({| sessions := <[sid := st']> (sessions w); bookings := bookings w |}, Ok env)
    /\ st' = set_messages
               (messages st ++ [assistant_message inp (generated_response inp)])%list st
    /\ py_get env "response" = Ok (JStr (generated_response inp))
    /\ py_get env "booking" = Ok JNull
    /\ py_get env "available_slots" = Ok (JArr [])
    /\ py_get env "next_action" = Ok (JStr "ask_reason")
    /\ py_get env "intent" = Ok (JStr "unknown")
    /\ py_get env "appointment_types" = Ok JNull.
Proof.
  intros Hia sid old st. unfold chat. fold sid old.
  rewrite chat_session_unfold, Hia. cbv zeta.
  change (py_get_default (analyze_intent None) "extracted" (JObj [])) with (@Ok json (JObj [])).
  cbv iota. rewrite merge_all_nothing.
  rewrite (handle_slot_nothing [] _ eq_refl eq_refl).
  rewrite respond_unfold.
  change (py_get (analyze_intent None) "next_action") with (@Ok json (JStr "ask_reason")).
  change (can_book (analyze_intent None) _) with (@Ok bool false).
  change (py_get (analyze_intent None) "intent") with (@Ok json (JStr "unknown")).
  cbv iota zeta. do 2 eexists. split; [reflexivity|]. repeat split.
Qed.

Lemma respond_keeps_collected (ia : json) (inp : Inputs) (c c' : Cfg) (r : result json) :
  respond SCHEDULE_DATA py_str ia inp c = (c', r) ->
  collected_info (cur c') = collected_info (cur c).
Proof.
  rewrite respond_unfold.
  destruct (py_get ia "next_action"); [|now intros [= <- _]].
  destruct (can_book ia (cur c)) as [[]|]; [| |now intros [= <- _]].
  - rewrite finalize_unfold.
    destruct (booking_data_of (cur c)); [|now intros [= <- _]]. cbv zeta.
    destruct (py_item _ "day"); [|now intros [= <- _]].
    destruct (py_item _ "date"); [|now intros [= <- _]].
    destruct (py_item _ "start_time"); [|now intros [= <- _]].
    destruct (py_item _ "confirmation_code"); [|now intros [= <- _]].
    destruct (py_get ia "intent"); now intros [= <- _].
  - destruct (py_get ia "intent"); now intros [= <- _].
Qed.

Ltac flags_after_merge :=
  unfold flags_match, merge_reason, merge_appointment_type, merge_name, merge_phone,
    merge_email, merge_date, merge_time_preference;
  intros (H1 & H2 & H3 & H4 & H5 & H6 & H7);
  split_if; simpl;
  rewrite ?lookup_insert_eq, ?lookup_insert_ne by discriminate;
  repeat match goal with
         | H : _ && _ = true |- _ => apply andb_true_iff in H as [? ?]
         end;
  repeat split; congruence.

Lemma chat_session_flags_match (request : ChatRequest) (inp : Inputs)
    (c c' : Cfg) (r : result json) :
  chat_session SCHEDULE_DATA py_str request inp c = (c', r) ->
  flags_match (cur c) -> flags_match (cur c').
Proof.
  set (R := fun c c' : Cfg => flags_match (cur c) -> flags_match (cur c')).
  assert (HR : PreOrder R).
  { split; unfold R; [intros x; auto | intros x y z; auto]. }
  intros H. refine ((_ : frames R _) _ _ _ H).
  unfold chat_session.
  apply frames_bind.
  { intros x x' rx. rewrite check_restart_spec. intros [= <- _]. unfold R. simpl.
    destruct (restart_requested _ _); [intros _; repeat split | auto]. }
  intros _. apply frames_bind.
  - unfold absorb, append_message, merge_extracted. frames_steps.
    all: try (unfold R; simpl; flags_after_merge).
    eapply frames_weaken; [|apply handle_slot_same_but_slot].
    intros x x' (_ & _ & _ & _ & Hc & Hp & Hty & Hd & Ht & Hr).
    unfold R, flags_match. now rewrite Hc, Hp, Hty, Hd, Ht, Hr.
  - intros _. intros x x' rx Hx. unfold R, flags_match.
    rewrite (respond_keeps_collected _ _ _ _ _ Hx).
    apply respond_same_patient_and_booking in Hx as [-> ->]. auto.
Qed.

(** X12. The collected flags follow the fields: when in every session each of
    the seven flags tells whether its field holds a value, the same is true
    after a chat call, whatever it extracts and whether or not it ends in an
    exception. *)
Theorem chat_keeps_flags_matching (request : ChatRequest) (inp : Inputs) (w : World) :
  (forall sid st, sessions w !! sid = Some st -> flags_match st) ->
  forall sid st,
    sessions (fst (chat SCHEDULE_DATA py_str request inp w)) !! sid = Some st ->
    flags_match st.
Proof.
  intros Hw sid st. unfold chat.
  destruct (chat_session _ _ _ _ _) as [c' r] eqn:Hc. simpl.
  destruct (decide (request_session_id request = sid)) as [<-|Hne].
  - rewrite lookup_insert_eq. intros [= <-].
    apply (chat_session_flags_match _ _ _ _ _ Hc). simpl.
    destruct (sessions w !! request_session_id request) as [st0|] eqn:E; simpl.
    + now apply (Hw _ _ E).
    + repeat split.
  - rewrite lookup_insert_ne by exact Hne. apply Hw.
Qed.

(* ---------------------------------------------------------------------- *)
(** *** Selecting a slot through its own endpoint *)

(** The session [select_slot] leaves when the slot has a date. *)
Lemma select_slot_spec (sid : string) (slot : list (string * json)) (w : World)
    (st : ConversationState) (d : json) :
  sessions w !! sid = Some st ->
  dict_get slot "date" = Some d ->
  select_slot sid slot w
  = ({| sessions := <[sid := set_phase COLLECTING_INFO
                              (set_preferred_date d (set_selected_slot (JObj slot) st))]>
                      (sessions w);
        bookings := bookings w |},
     Http_ok (JObj [("status", JStr "success"); ("selected_slot", JObj slot)])).
Proof. intros Hst Hd. unfold select_slot. now rewrite Hst, Hd. Qed.



(** X15. The slot endpoint sets the preferred date without raising its
    flag: on a session whose flags follow the fields and that has no date
    yet, a slot with a non-empty date leaves the date stored and the "date"
    flag false, so the flags no longer follow the fields. *)
Theorem select_slot_leaves_date_flag (sid : string) (slot : list (string * json))
    (w : World) (st : ConversationState) (d : json) :
  sessions w !! sid = Some st ->
  flags_match st ->
  truthy (preferred_date (booking_details st)) = false ->
  dict_get slot "date" = Some d ->
  truthy d = true ->
  exists st',
    sessions (fst (select_slot sid slot w)) !! sid = Some st'
    /\ preferred_date (booking_details st') = d
    /\ collected_info st' !! "date" = Some false
    /\ ~ flags_match st'.
Proof.
  intros Hst (_ & _ & _ & _ & _ & Hdate & _) Hnone Hd Htr.
  rewrite (select_slot_spec sid slot w st d Hst Hd). simpl.
  eexists. split; [apply lookup_insert_eq|]. simpl.
  rewrite Hnone in Hdate.
  split; [reflexivity|]. split; [exact Hdate|].
  intros (_ & _ & _ & _ & _ & Hbad & _). simpl in Hbad. congruence.
Qed.

(* ---------------------------------------------------------------------- *)
(** *** Selecting by number, and the phase the merge leaves *)

Lemma handle_slot_by_number (ex : list (string * json)) (c : Cfg) (n : Z) :
  truthy (extracted_get ex "specific_slot") = false ->
  truthy (extracted_get ex "slot_selection") = true ->
  truthy (appointment_type (booking_details (cur c))) = true ->
  py_int (extracted_get ex "slot_selection") = Ok n ->
  1 <= n <= Z.of_nat (length (selectable_slots SCHEDULE_DATA (cur c))) ->
  exists a,
    selectable_slots SCHEDULE_DATA (cur c) !! Z.to_nat (n - 1) = Some a
    /\ handle_slot SCHEDULE_DATA (JObj ex) c
       = ({| cur := set_phase COLLECTING_INFO (set_selected_slot (slot_dict a) (cur c));
             ledger := ledger c |}, Ok tt).
Proof.
  intros Hspec Hsel Hty Hn Hrange.
  destruct (lookup_lt_is_Some_2 (selectable_slots SCHEDULE_DATA (cur c)) (Z.to_nat (n - 1)))
    as [a Ha]; [lia|].
  exists a. split; [exact Ha|]. unfold handle_slot.
  change (py_get (JObj ex) "specific_slot") with (Ok (extracted_get ex "specific_slot")).
  rewrite bind_lift_ok, Hspec.
  change (py_get (JObj ex) "slot_selection") with (Ok (extracted_get ex "slot_selection")).
  rewrite bind_lift_ok, bind_get_state, Hsel, Hty. cbn [andb].
  assert (Hs : select_by_number SCHEDULE_DATA (extracted_get ex "slot_selection") (cur c)
               = Ok (set_phase COLLECTING_INFO (set_selected_slot (slot_dict a) (cur c)))).
  { unfold select_by_number. fold (selectable_slots SCHEDULE_DATA (cur c)).
    rewrite Hn. cbv zeta.
    replace (0 <=? n - 1) with true by (symmetry; apply Z.leb_le; lia).
    replace (n - 1 <? Z.of_nat (length (selectable_slots SCHEDULE_DATA (cur c))))
      with true by (symmetry; apply Z.ltb_lt; lia).
    cbn [andb]. now rewrite Ha. }
  rewrite Hs, bind_lift_ok. reflexivity.
Qed.

(** X16. A slot chosen by number is read against the list computed at that
    moment: with no [specific_slot] extracted, an appointment type set and a
    [slot_selection] whose [int()] value [n] is between 1 and the length of
    the list the Slot Finder gives for the type, date and time preference
    the session has after the merge of the same message, the call stores
    the [n]-th slot of that list as the selected slot. *)
Theorem chat_selects_by_number (request : ChatRequest) (inp : Inputs)
    (w w' : World) (r : result json) (ex : list (string * json)) (n : Z) :
  let sid := request_session_id request in
  let old := default (ConversationState_new sid) (sessions w !! sid) in
  let st := merge_all ex (before_merge request inp old) in
  py_get_default (intent_analysis inp) "extracted" (JObj []) = Ok (JObj ex) ->
  truthy (extracted_get ex "specific_slot") = false ->
  truthy (extracted_get ex "slot_selection") = true ->
  py_int (extracted_get ex "slot_selection") = Ok n ->
  truthy (appointment_type (booking_details st)) = true ->
  1 <= n <= Z.of_nat (length (selectable_slots SCHEDULE_DATA st)) ->
  chat SCHEDULE_DATA py_str request inp w = (w', r) ->
  exists a st',
    selectable_slots SCHEDULE_DATA st !! Z.to_nat (n - 1) = Some a
    /\ sessions w' !! sid = Some st'
    /\ selected_slot (booking_details st') = slot_dict a
    /\ (phase st' = COLLECTING_INFO \/ phase st' = COMPLETE).
Proof.
  intros sid old st Hex Hspec Hsel Hn Hty Hrange. unfold chat. fold sid old.
  destruct (chat_session _ _ _ _ _) as [c' r'] eqn:Hc. intros [= <- <-].
  rewrite chat_session_unfold in Hc. cbv zeta in Hc. rewrite Hex in Hc.
  cbn [cur ledger] in Hc. fold st in Hc.
  destruct (handle_slot_by_number ex {| cur := st; ledger := bookings w |} n
              Hspec Hsel Hty Hn Hrange) as (a & Ha & Hh).
  rewrite Hh in Hc. exists a, (cur c').
  split; [exact Ha|]. split; [simpl; apply lookup_insert_eq|].
  pose proof Hc as Hc'.
  apply respond_same_patient_and_booking in Hc as [_ Hb]. simpl in Hb.
  split; [now rewrite Hb|].
  rewrite respond_unfold in Hc'. cbn [cur ledger] in Hc'.
  destruct (py_get _ "next_action"); [|injection Hc' as <- _; now left].
  destruct (can_book _ _) as [[]|]; [| |injection Hc' as <- _; now left].
  - rewrite finalize_unfold in Hc'. cbn [cur ledger] in Hc'.
    destruct (booking_data_of _); [|injection Hc' as <- _; now left]. cbv zeta in Hc'.
    destruct (py_item _ "day"); [|injection Hc' as <- _; now right].
    destruct (py_item _ "date"); [|injection Hc' as <- _; now right].
    destruct (py_item _ "start_time"); [|injection Hc' as <- _; now right].
    destruct (py_item _ "confirmation_code"); [|injection Hc' as <- _; now right].
    destruct (py_get _ "intent"); injection Hc' as <- _; now right.
  - destruct (py_get _ "intent"); injection Hc' as <- _; now left.
Qed.

Lemma handle_slot_raises (ex : list (string * json)) (c : Cfg) (e : exn) :
  truthy (extracted_get ex "specific_slot") = false ->
  truthy (extracted_get ex "slot_selection") = true ->
  truthy (appointment_type (booking_details (cur c))) = true ->
  py_int (extracted_get ex "slot_selection") = Raise e ->
  e <> ValueError ->
  handle_slot SCHEDULE_DATA (JObj ex) c = (c, Raise e).
Proof.
  intros Hspec Hsel Hty Hn He. unfold handle_slot.
  change (py_get (JObj ex) "specific_slot") with (Ok (extracted_get ex "specific_slot")).
  rewrite bind_lift_ok, Hspec.
  change (py_get (JObj ex) "slot_selection") with (Ok (extracted_get ex "slot_selection")).
  rewrite bind_lift_ok, bind_get_state, Hsel, Hty. cbn [andb].
  assert (Hs : select_by_number SCHEDULE_DATA (extracted_get ex "slot_selection") (cur c)
               = Raise e).
  { unfold select_by_number. rewrite Hn. destruct e; congruence. }
  unfold mbind, M_bind, lift. now rewrite Hs.
Qed.

(** X20. Only ValueError is caught around [int(slot_num)].  With no
    [specific_slot] extracted, an appointment type set after the merge and a
    truthy [slot_selection] on which [int()] raises another exception
    (TypeError for a list or a dict, OverflowError for an infinity), the call
    ends with that exception: the session keeps the user's message and the
    merged fields, the ledger is as before, and no response is made. *)
Theorem chat_selection_exception_escapes (request : ChatRequest) (inp : Inputs)
    (w : World) (ex : list (string * json)) (e : exn) :
  let sid := request_session_id request in
  let old := default (ConversationState_new sid) (sessions w !! sid) in
  let st := merge_all ex (before_merge request inp old) in
  py_get_default (intent_analysis inp) "extracted" (JObj []) = Ok (JObj ex) ->
  truthy (extracted_get ex "specific_slot") = false ->
  truthy (extracted_get ex "slot_selection") = true ->
  py_int (extracted_get ex "slot_selection") = Raise e ->
  e <> ValueError ->
  truthy (appointment_type (booking_details st)) = true ->
  chat SCHEDULE_DATA py_str request inp w
  = ({| sessions := <[sid := st]> (sessions w); bookings := bookings w |}, Raise e).
Proof.
  intros sid old st Hex Hspec Hsel Hn He Hty. unfold chat. fold sid old.
  rewrite chat_session_unfold. cbv zeta. rewrite Hex.
  cbn [cur ledger]. fold st.
  rewrite (handle_slot_raises ex {| cur := st; ledger := bookings w |} e
             Hspec Hsel Hty Hn He).
  reflexivity.
Qed.

Lemma merge_all_phase (ex : list (string * json)) (st : ConversationState) :
  phase (merge_all ex st) = phase_after_merge ex st.
Proof. unfold phase_after_merge. unfold_merges. split_if; reflexivity. Qed.

(** X17. The phase follows the fields just merged, not the phase before:
    when a call extracts no slot and is not ready to book, the phase it
    leaves and reports is showing-slots if a time preference was extracted,
    else understanding if an appointment type was, else selecting-type if a
    reason was and none was stored, else the phase the session had (greeting
    after a restart). *)
Theorem chat_phase_follows_merge (request : ChatRequest) (inp : Inputs) (w : World)
    (ex : list (string * json)) (ready : json) :
  let sid := request_session_id request in
  let old := default (ConversationState_new sid) (sessions w !! sid) in
  let st := before_merge request inp old in
  py_get_default (intent_analysis inp) "extracted" (JObj []) = Ok (JObj ex) ->
  truthy (extracted_get ex "specific_slot") = false ->
  truthy (extracted_get ex "slot_selection") = false ->
  py_get (intent_analysis inp) "ready_to_book" = Ok ready ->
  truthy ready = false ->
  exists st' env,
    chat SCHEDULE_DATA py_str request inp w
    = ({| sessions := <[sid := st']> (sessions w); bookings := bookings w |}, Ok env)
    /\ phase st' = phase_after_merge ex st
    /\ py_get env "phase" = Ok (JStr (phase_value (phase_after_merge ex st)))
    /\ py_get env "booking" = Ok JNull.
Proof.
  intros sid old st Hex Hspec Hsel Hready Hfalse. unfold chat. fold sid old.
  rewrite chat_session_unfold. cbv zeta. rewrite Hex. cbn [cur ledger]. fold st.
  rewrite (handle_slot_nothing ex _ Hspec Hsel).
  rewrite respond_unfold, (py_get_dict _ _ _ Hready "next_action").
  assert (Hcb : can_book (intent_analysis inp) (merge_all ex st) = Ok false).
  { unfold can_book, mbind, result_bind. now rewrite Hready, Hfalse. }
  cbn [cur ledger]. rewrite Hcb, (py_get_dict _ _ _ Hready "intent"). cbv zeta.
  do 2 eexists. split; [reflexivity|]. simpl. rewrite merge_all_phase.
  repeat split.
Qed.

End ChatEdges.

(** X18. A reset touches one session and nothing else: the ledger, with
    every booking in it, and all other sessions are as before; an unknown
    session identifier changes nothing at all and is answered "not_found",
    a known one is answered "reset" and keeps its messages. *)
Theorem reset_session_touches_one_session (sid : string) (w : World) :
  bookings (fst (reset_session sid w)) = bookings w
  /\ (forall booking_id,
        get_booking booking_id (fst (reset_session sid w)) = get_booking booking_id w)
  /\ (forall sid', sid' <> sid ->
        sessions (fst (reset_session sid w)) !! sid' = sessions w !! sid')
  /\ match sessions w !! sid with
     | None => reset_session sid w = (w, "not_found")
     | Some st =>
         snd (reset_session sid w) = "reset"
         /\ exists st', sessions (fst (reset_session sid w)) !! sid = Some st'
                        /\ messages st' = messages st
     end.
Proof.
  unfold reset_session, get_booking.
  destruct (sessions w !! sid) as [st|] eqn:Hst; simpl.
  - split; [reflexivity|]. split; [reflexivity|].
    split; [intros sid' Hne; now rewrite lookup_insert_ne|].
    split; [reflexivity|]. exists (reset_state st).
    split; [apply lookup_insert_eq | reflexivity].
  - repeat split.
Qed.

(* ====================================================================== *)
(** ** The further properties on sample calls *)
(* ====================================================================== *)

Section FurtherSampleCalls.

#[local] Existing Instance ascii_text.


Lemma get_available_slots_sound_witness :
  (length (get_available_slots sample_schedule (JStr "general_consultation")
             (JStr "2025-01-06") JNull) <= 10)%nat
  /\ exists (day_data slot available : json),
       schedule_slot sample_schedule (JStr "general_consultation")
         (slot_day monday_morning_slot) day_data slot
       /\ py_get slot "available" = Ok available /\ truthy available = true
       /\ py_get day_data "date" = Ok (slot_date monday_morning_slot)
       /\ py_get slot "start_time" = Ok (slot_start_time monday_morning_slot)
       /\ py_get slot "end_time" = Ok (slot_end_time monday_morning_slot)
       /\ schedule_duration sample_schedule (JStr "general_consultation")
          = Ok (slot_duration monday_morning_slot)
       /\ (truthy (JStr "2025-01-06") = true ->
             py_eq (slot_date monday_morning_slot) (JStr "2025-01-06") = true).
Proof.
  apply (get_available_slots_sound sample_schedule (JStr "general_consultation")
           (JStr "2025-01-06") JNull monday_morning_slot).
  vm_compute. left. reflexivity.
Defined.

Lemma get_available_slots_nothing_offered_witness :
  get_available_slots sample_schedule (JStr "general_consultation")
    (JStr "2030-01-01") (JStr "morning") = [].
Proof.
  apply get_available_slots_nothing_offered.
  intros day day_data (kv & type_name & entry & days & HS & Hty & Hg & Hsched & Hin).
  injection HS as <-. injection Hty as <-.
  vm_compute in Hg. injection Hg as <-.
  vm_compute in Hsched. injection Hsched as <-.
  intros [Hf | (d & Hd & He)]; [discriminate Hf|].
  destruct Hin as [Hin | [Hin | []]]; injection Hin as <- <-;
    vm_compute in Hd; injection Hd as <-; discriminate He.
Defined.

Lemma get_available_slots_poisoned_witness :
  get_available_slots poisoned_schedule (JStr "general_consultation") JNull (JStr "morning")
  = [].
Proof.
  refine (get_available_slots_poisoned poisoned_schedule (JStr "general_consultation")
            JNull (JStr "morning") "Monday"
            (JObj [("date", JStr "2025-01-06");
                   ("slots", JArr [
                      JObj [("start_time", JStr "09:00"); ("end_time", JStr "09:30");
                            ("available", JBool true)];
                      JObj [("start_time", JStr "noon"); ("end_time", JStr "12:30");
                            ("available", JBool true)]])])
            (JObj [("start_time", JStr "noon"); ("end_time", JStr "12:30");
                   ("available", JBool true)])
            (JBool true) ValueError _ _ _ _ _ _).
  - split.
    + eexists _, "general_consultation", _, _.
      split; [reflexivity|]. split; [reflexivity|]. split; [reflexivity|].
      split; [reflexivity|]. left. reflexivity.
    + eexists _, _. split; [reflexivity|]. split; [reflexivity|].
      right. left. reflexivity.
  - left. reflexivity.
  - reflexivity.
  - reflexivity.
  - reflexivity.
  - reflexivity.
Defined.

(** Without the filter the 09:00 slot of that table comes back. *)
Example poisoned_schedule_unfiltered :
  In monday_morning_slot
     (get_available_slots poisoned_schedule (JStr "general_consultation") JNull JNull).
Proof. vm_compute. left. reflexivity. Qed.


Lemma chat_booking_can_be_fetched_witness :
  let out := chat sample_schedule sample_str (request_of "s1" "book it")
               complete_inputs empty_world in
  let b := response_of (py_get (response_of (snd out)) "booking") in
  py_get b "booking_id" = Ok (JStr (booking_id_of complete_inputs))
  /\ get_booking (booking_id_of complete_inputs) (fst out) = Http_ok b
  /\ exists st', sessions (fst out) !! "s1" = Some st' /\ phase st' = COMPLETE.
Proof.
  intros out b.
  refine (chat_booking_can_be_fetched sample_schedule sample_str
            (request_of "s1" "book it") complete_inputs empty_world (fst out)
            (response_of (snd out)) b _ _ _).
  - vm_compute. reflexivity.
  - vm_compute. reflexivity.
  - vm_compute. discriminate.
Defined.



Lemma chat_appends_messages_witness :
  let request := request_of "s1" "it is Bob Ray, 555-0199" in
  let out := chat sample_schedule sample_str request other_name_inputs world_after_intake in
  exists st',
    sessions (fst out) !! "s1" = Some st'
    /\ session_id st' = session_id session_after_intake
    /\ match snd out with
       | Ok env =>
           exists text,
             py_get env "response" = Ok (JStr text)
             /\ messages st' = (messages session_after_intake
                                ++ [user_message request other_name_inputs;
                                    assistant_message other_name_inputs text])%list
       | Raise _ =>
           messages st' = (messages session_after_intake
                           ++ [user_message request other_name_inputs])%list
       end.
Proof.
  intros request out.
  apply (chat_appends_messages sample_schedule sample_str request other_name_inputs
           world_after_intake (fst out) (snd out)).
  apply surjective_pairing.
Defined.

Lemma chat_touches_one_session_witness :
  let out := chat sample_schedule sample_str (request_of "s2" "book it")
               complete_inputs world_after_intake in
  sessions (fst out) !! "s1" = sessions world_after_intake !! "s1"
  /\ get_booking "APPT-20250102-00000000" (fst out)
     = get_booking "APPT-20250102-00000000" world_after_intake.
Proof.
  intros out.
  destruct (chat_touches_one_session sample_schedule sample_str (request_of "s2" "book it")
              complete_inputs world_after_intake (fst out) (snd out)
              (surjective_pairing _)) as (Hs & _ & Hb).
  split; [apply Hs | apply Hb]; discriminate.
Defined.

Lemma chat_extracted_not_a_dict_witness :
  let request := request_of "s1" "hello" in
  chat sample_schedule sample_str request null_extracted_inputs empty_world
  = ({| sessions := <["s1" := before_merge request null_extracted_inputs
                               (ConversationState_new "s1")]> ∅;
        bookings := ∅ |}, Raise AttributeError).
Proof.
  intros request.
  apply (chat_extracted_not_a_dict sample_schedule sample_str request
           null_extracted_inputs empty_world).
  intros ex Hex. discriminate Hex.
Defined.

Lemma chat_on_intent_fallback_witness :
  exists st' env,
    chat sample_schedule sample_str (request_of "s1" "hello") fallback_inputs
      world_after_intake
    = ({| sessions := <["s1" := st']> (sessions world_after_intake);
          bookings := bookings world_after_intake |}, Ok env)
    /\ patient_info st' = patient_info session_after_intake
    /\ py_get env "next_action" = Ok (JStr "ask_reason").
Proof.
  destruct (chat_on_intent_fallback sample_schedule sample_str (request_of "s1" "hello")
              fallback_inputs world_after_intake eq_refl)
    as (st' & env & Hc & Hst & _ & _ & _ & Hna & _).
  exists st', env. split; [exact Hc|]. split; [|exact Hna].
  rewrite Hst. reflexivity.
Defined.

Lemma chat_keeps_flags_matching_witness :
  flags_match
    (default (ConversationState_new "s1")
       (sessions (fst (chat sample_schedule sample_str
                         (request_of "s1" "Ann Lee, ann@example.org")
                         intake_inputs empty_world)) !! "s1")).
Proof.
  apply (chat_keeps_flags_matching sample_schedule sample_str
           (request_of "s1" "Ann Lee, ann@example.org") intake_inputs empty_world)
    with (sid := "s1").
  - intros sid st Hst. unfold empty_world in Hst. simpl in Hst.
    rewrite lookup_empty in Hst. discriminate Hst.
  - vm_compute. reflexivity.
Defined.



Lemma select_slot_leaves_date_flag_witness :
  exists st',
    sessions (fst (select_slot "s1" unlisted_slot world_after_intake)) !! "s1" = Some st'
    /\ preferred_date (booking_details st') = JStr "2031-02-02"
    /\ collected_info st' !! "date" = Some false
    /\ ~ flags_match st'.
Proof.
  refine (select_slot_leaves_date_flag "s1" unlisted_slot world_after_intake
            session_after_intake (JStr "2031-02-02") _ _ _ _ _).
  - vm_compute. reflexivity.
  - vm_compute. repeat split.
  - reflexivity.
  - reflexivity.
  - reflexivity.
Defined.

Lemma chat_selects_by_number_witness :
  exists a st',
    get_available_slots sample_schedule (JStr "general_consultation")
      (JStr "2025-01-06") JNull !! 1%nat = Some a
    /\ sessions (fst (chat sample_schedule sample_str (request_of "s1" "the second one")
                        second_slot_inputs world_with_type)) !! "s1" = Some st'
    /\ selected_slot (booking_details st') = slot_dict a
    /\ slot_start_time a = JStr "13:00".
Proof.
  destruct (chat_selects_by_number (py := ascii_text) sample_schedule sample_str
              (request_of "s1" "the second one") second_slot_inputs world_with_type
              (fst (chat sample_schedule sample_str (request_of "s1" "the second one")
                      second_slot_inputs world_with_type))
              (snd (chat sample_schedule sample_str (request_of "s1" "the second one")
                      second_slot_inputs world_with_type))
              [("slot_selection", JStr " 2 ")] 2
              eq_refl eq_refl eq_refl eq_refl)
    as (a & st' & Ha & Hst & Hsel & _).
  - vm_compute. reflexivity.
  - vm_compute. split; discriminate.
  - apply surjective_pairing.
  - exists a, st'. split; [exact Ha|]. split; [exact Hst|]. split; [exact Hsel|].
    vm_compute in Ha. injection Ha as <-. reflexivity.
Defined.

Lemma chat_phase_follows_merge_witness :
  phase session_after_booking = COMPLETE
  /\ exists st' env,
       chat sample_schedule sample_str (request_of "s1" "in the evening, for a cough")
         evening_inputs world_after_booking
       = ({| sessions := <["s1" := st']> (sessions world_after_booking);
             bookings := bookings world_after_booking |}, Ok env)
       /\ phase st' = SHOWING_SLOTS
       /\ py_get env "phase" = Ok (JStr "showing_slots").
Proof.
  split; [reflexivity|].
  destruct (chat_phase_follows_merge sample_schedule sample_str
              (request_of "s1" "in the evening, for a cough") evening_inputs
              world_after_booking
              [("reason", JStr "a cough"); ("time_preference", JStr "evening")]
              (JBool false) eq_refl eq_refl eq_refl eq_refl eq_refl)
    as (st' & env & Hc & Hph & Henv & _).
  exists st', env. split; [exact Hc|]. split; [exact Hph | exact Henv].
Defined.

Lemma chat_selection_exception_escapes_witness :
  snd (chat sample_schedule sample_str (request_of "s1" "the last one of all")
         (sample_inputs (analysis "select_slot"
            [("slot_selection", JFloat (FInf true))] "collect_name" false))
         world_with_type)
  = Raise OverflowError.
Proof.
  refine (f_equal snd
            (chat_selection_exception_escapes (py := ascii_text) sample_schedule sample_str
               (request_of "s1" "the last one of all")
               (sample_inputs (analysis "select_slot"
                  [("slot_selection", JFloat (FInf true))] "collect_name" false))
               world_with_type [("slot_selection", JFloat (FInf true))] OverflowError
               _ _ _ _ _ _)).
  - reflexivity.
  - reflexivity.
  - reflexivity.
  - reflexivity.
  - discriminate.
  - vm_compute. reflexivity.
Defined.

End FurtherSampleCalls.
